(** * AirCheck: the text normaliser, the serving endpoint and the training driver

    A shallow embedding of [nlp_processor.py], [app.py] and
    [model_training.py].

    Conventions.
    - A Python [str] is a Rocq [string]; a character is the code point it
      denotes, so the embedding covers texts whose code points are below 256.
      String constants that the program never inspects (icons, advisory
      sentences) are carried as they are written.
    - The Sastrawi stemmer and stop-word remover, scikit-learn's estimators
      and Python's [random] module are libraries the repository only calls.
      They are [Variable]s of the sections below; what a theorem needs from
      them is a hypothesis of that theorem.
    - A Python [float] is carried as the rational number it denotes; what
      float64 arithmetic computes from it is a [Variable]. *)

From Stdlib Require Import Ascii String List ZArith QArith Qround Lia.
From stdpp Require Import gmap strings list fin_maps.

Local Open Scope string_scope.
Local Open Scope list_scope.

(** ** Characters *)

Module Char.

Definition code (c : ascii) : N := Ascii.N_of_ascii c.

Definition between (lo hi : N) (c : ascii) : bool :=
  ((lo <=? code c) && (code c <=? hi))%N.

(** [str.isspace] on one character, which is also what [\s] matches:
    TAB..CR, FS..US, SPACE, NEL and NBSP. *)
Definition isspace (c : ascii) : bool :=
  between 9 13 c || between 28 32 c || (code c =? 133)%N || (code c =? 160)%N.

(** What [\d] matches: the decimal digits. *)
Definition isdigit (c : ascii) : bool := between 48 57 c.

(** [str.lower] on one character: A-Z, and the capital letters of the
    upper half except the multiplication sign. *)
Definition lower (c : ascii) : ascii :=
  if between 65 90 c
     || (between 192 222 c && negb (code c =? 215)%N)
  then Ascii.ascii_of_N (code c + 32)
  else c.

End Char.

(** ** Strings *)

Module Str.

Fixpoint map (f : ascii -> ascii) (s : string) : string :=
  match s with
  | EmptyString => EmptyString
  | String c r => String (f c) (map f r)
  end.

Fixpoint filter (p : ascii -> bool) (s : string) : string :=
  match s with
  | EmptyString => EmptyString
  | String c r => if p c then String c (filter p r) else filter p r
  end.

Fixpoint all (p : ascii -> bool) (s : string) : bool :=
  match s with
  | EmptyString => true
  | String c r => p c && all p r
  end.

Fixpoint mem (c : ascii) (s : string) : bool :=
  match s with
  | EmptyString => false
  | String d r => Ascii.eqb c d || mem c r
  end.

Definition is_empty (s : string) : bool :=
  match s with EmptyString => true | String _ _ => false end.

(** [str.lower]. *)
Definition lower (s : string) : string := map Char.lower s.

(** [re.sub(r'\s+', ' ', s)]: every maximal run of white space becomes one
    space.  [in_run] says that the character before [s] was white space. *)
Fixpoint collapse_from (in_run : bool) (s : string) : string :=
  match s with
  | EmptyString => EmptyString
  | String c r =>
      if Char.isspace c
      then if in_run then collapse_from true r
           else String " " (collapse_from true r)
      else String c (collapse_from false r)
  end.

Definition collapse (s : string) : string := collapse_from false s.

Fixpoint lstrip (s : string) : string :=
  match s with
  | EmptyString => EmptyString
  | String c r => if Char.isspace c then lstrip r else s
  end.

Fixpoint rstrip (s : string) : string :=
  match s with
  | EmptyString => EmptyString
  | String c r =>
      let r' := rstrip r in
      if Char.isspace c && is_empty r' then EmptyString else String c r'
  end.

(** [str.strip()]. *)
Definition strip (s : string) : string := rstrip (lstrip s).

(** [str.split()]: the maximal runs of characters that are not white
    space.  [cur] is the word read so far. *)
Fixpoint split_from (cur : string) (s : string) : list string :=
  match s with
  | EmptyString => if is_empty cur then [] else [cur]
  | String c r =>
      if Char.isspace c
      then if is_empty cur then split_from EmptyString r
           else cur :: split_from EmptyString r
      else split_from (cur +:+ String c EmptyString) r
  end.

Definition split (s : string) : list string := split_from EmptyString s.

(** [sep.join(words)]. *)
Fixpoint join (sep : string) (words : list string) : string :=
  match words with
  | [] => EmptyString
  | [w] => w
  | w :: rest => w +:+ sep +:+ join sep rest
  end.

End Str.

(** ** nlp_processor.py *)

(** [string.punctuation]; the double quote is character 34. *)
Definition punctuation : string :=
  "!" +:+ String (Ascii.ascii_of_nat 34) "#$%&'()*+,-./:;<=>?@[\]^_`{|}~".

Definition CUSTOM_STOPWORDS : gset string :=
  list_to_set
    [ "dan"; "atau"; "yang"; "di"; "ke"; "dari"; "ini"; "itu";
      "dengan"; "untuk"; "pada"; "adalah"; "juga"; "sudah";
      "akan"; "bisa"; "ada"; "tidak"; "saya"; "kami"; "kita";
      "mereka"; "dia"; "ia"; "sangat"; "sekali"; "terasa"; "seperti" ].

(** The argument is a [str]; the [isinstance] guard, which answers the
    empty text for any other object, is the type of [text] here. *)
Definition case_folding (text : string) : string := Str.lower text.

Definition remove_punctuation (text : string) : string :=
  let text := Str.filter (fun c => negb (Str.mem c punctuation)) text in
  let text := Str.filter (fun c => negb (Char.isdigit c)) text in
  Str.strip (Str.collapse text).

Definition tokenize (text : string) : list string := Str.split text.

Section Normalizer.

(** [stopword_remover.remove] and [stemmer.stem] of the Sastrawi library. *)
Variable stopword_remover_remove : string -> string.
Variable stemmer_stem : string -> string.

Definition remove_stopwords (tokens : list string) : list string :=
  let text := Str.join " " tokens in
  let text := stopword_remover_remove text in
  let result_tokens := Str.split text in
  List.filter (fun word => bool_decide (word ∉ CUSTOM_STOPWORDS)) result_tokens.

Definition stem (tokens : list string) : list string :=
  List.map stemmer_stem tokens.

Definition preprocess (text : string) : string :=
  let text := case_folding text in
  let text := remove_punctuation text in
  let tokens := tokenize text in
  let tokens := remove_stopwords tokens in
  let tokens := stem tokens in
  Str.join " " tokens.

Definition preprocess_batch (texts : list string) : list string :=
  List.map preprocess texts.

End Normalizer.

(** ** Exceptions *)

Inductive exn : Type :=
| ValueError
| KeyError
| IndexError
| TypeError
| UnpicklingError.

Inductive result (A : Type) : Type :=
| Ok (a : A)
| Raise (e : exn).

Arguments Ok {A} a.
Arguments Raise {A} e.

#[global] Instance result_ret : MRet result := fun A a => Ok a.
#[global] Instance result_bind : MBind result := fun A B f m =>
  match m with
  | Ok a => f a
  | Raise e => Raise e
  end.

Definition raised {A} (r : result A) : Prop := exists e, r = Raise e.

(** [xs[i]] *)
Definition getitem {A} (xs : list A) (i : nat) : result A :=
  match xs !! i with
  | Some x => Ok x
  | None => Raise IndexError
  end.

(** ** app.py *)

Definition MODEL_PATH : string := "model_nb.pkl".
Definition VECTORIZER_PATH : string := "vectorizer.pkl".

Record Pool : Type := {
  warna : string;
  icon : string;
  deskripsi : string;
  saran_all : list string
}.

Record Saran : Type := {
  saran_warna : string;
  saran_icon : string;
  saran_deskripsi : string;
  saran : list string
}.

Definition pool_baik : Pool := {|
  warna := "#28a745";
  icon := "✅";
  deskripsi := "Kualitas udara sangat baik dan sehat untuk semua aktivitas.";
  saran_all := [
    "Aman untuk beraktivitas di luar ruangan sepanjang hari";
    "Cocok untuk olahraga dan kegiatan outdoor";
    "Nikmati udara segar dengan membuka jendela rumah";
    "Tidak perlu menggunakan masker";
    "Waktu yang tepat untuk jogging atau lari pagi";
    "Ideal untuk bersepeda di taman atau jalanan";
    "Bagus untuk piknik bersama keluarga";
    "Aman untuk anak-anak bermain di luar";
    "Cocok untuk senam pagi di area terbuka";
    "Manfaatkan untuk menjemur pakaian";
    "Baik untuk berkebun atau aktivitas halaman";
    "Udara segar baik untuk kesehatan mental";
    "Sempurna untuk hiking atau mendaki";
    "Aman untuk lansia beraktivitas outdoor";
    "Waktu tepat untuk olahraga bersama komunitas" ]
|}.

Definition pool_sedang : Pool := {|
  warna := "#ffc107";
  icon := "⚠️";
  deskripsi := "Kualitas udara cukup baik, namun perlu sedikit perhatian.";
  saran_all := [
    "Kurangi aktivitas berat di luar ruangan";
    "Gunakan masker jika sensitif terhadap polusi";
    "Perhatikan gejala seperti batuk atau mata perih";
    "Tutup jendela jika polusi meningkat";
    "Batasi waktu olahraga outdoor maksimal 1 jam";
    "Hindari area dengan lalu lintas padat";
    "Minum air putih lebih banyak dari biasanya";
    "Pertimbangkan olahraga indoor hari ini";
    "Waspadai jika memiliki riwayat asma";
    "Kurangi aktivitas fisik saat siang hari";
    "Pantau kondisi udara secara berkala";
    "Siapkan masker untuk berjaga-jaga";
    "Hindari area konstruksi atau pembangunan";
    "Batasi aktivitas outdoor untuk anak kecil";
    "Pertimbangkan untuk bekerja dari rumah" ]
|}.

Definition pool_tidak_sehat : Pool := {|
  warna := "#dc3545";
  icon := "🚨";
  deskripsi := "Kualitas udara buruk dan berbahaya bagi kesehatan.";
  saran_all := [
    "Hindari aktivitas di luar ruangan";
    "WAJIB gunakan masker N95 jika harus keluar";
    "Tutup semua jendela dan pintu rapat-rapat";
    "Gunakan air purifier jika tersedia";
    "Segera ke dokter jika mengalami sesak napas";
    "Jangan biarkan anak-anak bermain di luar";
    "Batasi aktivitas fisik seminimal mungkin";
    "Nyalakan AC dengan mode recirculate";
    "Siapkan obat-obatan pernapasan darurat";
    "Hindari memasak dengan pembakaran terbuka";
    "Basahi kain dan letakkan di ventilasi";
    "Minum air hangat untuk meredakan tenggorokan";
    "Tetap di dalam ruangan sebisa mungkin";
    "Hubungi layanan kesehatan jika gejala memburuk";
    "Evakuasi jika kondisi sangat parah";
    "Pantau informasi dari BMKG dan Dinkes";
    "Jangan membakar sampah atau apapun" ]
|}.

Definition saran_pool : gmap string Pool :=
  <["Tidak Sehat" := pool_tidak_sehat]>
    (<["Sedang" := pool_sedang]> (<["Baik" := pool_baik]> ∅)).

(** [d[key]] *)
Definition dict_getitem {V} (d : gmap string V) (key : string) : result V :=
  match d !! key with
  | Some v => Ok v
  | None => Raise KeyError
  end.

(** [dict(pairs)]: a later pair replaces an earlier one with the same key. *)
Definition dict {V} (pairs : list (string * V)) : gmap string V :=
  fold_left (fun d kv => <[kv.1 := kv.2]> d) pairs ∅.

Section Random.

(** The state of the process-wide generator of Python's [random] module,
    and the two calls the program makes on it. *)
Variable rng : Type.
Variable random_randint : Z -> Z -> rng -> Z * rng.
Variable random_choose : list string -> nat -> rng -> list string * rng.

(** [random.sample(population, k)]: [ValueError] when [k] is negative or
    larger than the population. *)
Definition random_sample (population : list string) (k : Z) (g : rng)
  : result (list string * rng) :=
  if ((k <? 0) || (Z.of_nat (length population) <? k))%Z
  then Raise ValueError
  else Ok (random_choose population (Z.to_nat k) g).

Definition get_saran (kualitas : string) (g : rng) : result (Saran * rng) :=
  fallback ← dict_getitem saran_pool "Sedang";
  let pool := default fallback (saran_pool !! kualitas) in
  let '(num_saran, g) := random_randint 4 5 g in
  '(selected_saran, g) ←
    random_sample (saran_all pool)
      (Z.min num_saran (Z.of_nat (length (saran_all pool)))) g;
  Ok ({| saran_warna := warna pool;
         saran_icon := icon pool;
         saran_deskripsi := deskripsi pool;
         saran := selected_saran |}, g).

End Random.

(** ** scikit-learn objects *)

(** A [TfidfVectorizer] and a [MultinomialNB], as the program sees them:
    objects with the methods and the attribute it uses.  [FV] is a row of
    the feature matrix.  A method raises when scikit-learn does: a
    classifier refuses a matrix that has not the number of columns it was
    fitted on. *)
Module Sklearn.

Record Vectorizer (FV : Type) : Type := {
  transform : list string -> result (list FV)
}.

Record Classifier (FV : Type) : Type := {
  classes_ : list string;
  predict : list FV -> result (list string);
  predict_proba : list FV -> result (list (list Q))
}.

Arguments transform {FV} _ _.
Arguments classes_ {FV} _.
Arguments predict {FV} _ _.
Arguments predict_proba {FV} _ _.

End Sklearn.

(** The JSON body the endpoint answers with. *)
Inductive Response : Type :=
| ErrorResponse (message : string)
| PredictionResponse
    (kualitas input_text processed_text : string)
    (probabilitas : gmap string Q)
    (saran : list string)
    (deskripsi : string).

Section Serving.

Variable FV : Type.
Variable blob : Type.
Variable pickle_load_model : blob -> result (Sklearn.Classifier FV).
Variable pickle_load_vectorizer : blob -> result (Sklearn.Vectorizer FV).

Variable stopword_remover_remove : string -> string.
Variable stemmer_stem : string -> string.

(** [round(p * 100, 1)] on a float64 of NumPy: the product and the
    rounding are those of the float64 arithmetic. *)
Variable round_percent : Q -> Q.

Variable rng : Type.
Variable random_randint : Z -> Z -> rng -> Z * rng.
Variable random_choose : list string -> nat -> rng -> list string * rng.

(** The module-level [model] and [vectorizer]; [None] is Python's. *)
Record Globals : Type := {
  model : option (Sklearn.Classifier FV);
  vectorizer : option (Sklearn.Vectorizer FV)
}.

Definition startup : Globals := {| model := None; vectorizer := None |}.

(** [os.path.exists] over the files of the working directory. *)
Definition exists_ (fs : gmap string blob) (path : string) : bool :=
  bool_decide (is_Some (fs !! path)).

(** [load_model()]: what it returns or raises, and the globals after it.
    An exception of the second [pickle.load] leaves [model] assigned. *)
Definition load_model (fs : gmap string blob) (G : Globals)
  : result bool * Globals :=
  if exists_ fs MODEL_PATH && exists_ fs VECTORIZER_PATH
  then
    match dict_getitem fs MODEL_PATH ≫= pickle_load_model with
    | Raise e => (Raise e, G)
    | Ok m =>
        let G := {| model := Some m; vectorizer := vectorizer G |} in
        match dict_getitem fs VECTORIZER_PATH ≫= pickle_load_vectorizer with
        | Raise e => (Raise e, G)
        | Ok v => (Ok true, {| model := model G; vectorizer := Some v |})
        end
    end
  else (Ok false, G).

Definition MSG_NOT_LOADED : string :=
  "Model belum dimuat. Jalankan training terlebih dahulu.".
Definition MSG_EMPTY : string :=
  "Silakan isi minimal satu pertanyaan.".

(** [request.form.get(name, '')] *)
Definition form_get (form : gmap string string) (name : string) : string :=
  default EmptyString (form !! name).

(** The [/predict] endpoint. *)
Definition predict (G : Globals) (form : gmap string string) (g : rng)
  : result (Response * rng) :=
  match model G, vectorizer G with
  | Some model, Some vectorizer =>
      let kondisi_kabut := form_get form "kondisi_kabut" in
      let kondisi_bau := form_get form "kondisi_bau" in
      let kondisi_pernapasan := form_get form "kondisi_pernapasan" in
      let deskripsi_tambahan := form_get form "deskripsi" in
      let input_text :=
        kondisi_kabut +:+ " " +:+ kondisi_bau +:+ " " +:+
        kondisi_pernapasan +:+ " " +:+ deskripsi_tambahan in
      if Str.is_empty (Str.strip input_text)
      then Ok (ErrorResponse MSG_EMPTY, g)
      else
        let processed_text :=
          preprocess stopword_remover_remove stemmer_stem input_text in
        text_tfidf ← Sklearn.transform vectorizer [processed_text];
        prediction ← Sklearn.predict model text_tfidf ≫= (fun y => getitem y 0);
        probability ←
          Sklearn.predict_proba model text_tfidf ≫= (fun P => getitem P 0);
        let prob_dict :=
          dict (zip (Sklearn.classes_ model)
                    (List.map (fun p => round_percent p) probability)) in
        '(saran_info, g) ← get_saran rng random_randint random_choose prediction g;
        Ok (PredictionResponse prediction input_text processed_text prob_dict
              (saran saran_info) (saran_deskripsi saran_info), g)
  | _, _ => Ok (ErrorResponse MSG_NOT_LOADED, g)
  end.

End Serving.

(** ** model_training.py *)

(** A cell of the column [jawaban_user] as [pd.read_csv] hands it over:
    a [str], or a number (the float NaN of an empty cell, or a numeral);
    the program does not use the value of a number. *)
Inductive cell : Type :=
| Text (s : string)
| Number.

(** The text [case_folding] goes on with: an object that is not a [str]
    is answered with the empty text. *)
Definition cell_text (c : cell) : string :=
  match c with
  | Text s => s
  | Number => EmptyString
  end.

(** [c[:50]]: a number has no slice. *)
Definition cell_slice (c : cell) : result string :=
  match c with
  | Text s => Ok (String.substring 0 50 s)
  | Number => Raise TypeError
  end.

Record Row : Type := {
  jawaban_user : cell;
  label_kualitas : string;
  processed_text : string
}.

Section Training.

Variable FV : Type.

(** [train_test_split(X, y, test_size, random_state, stratify)] *)
Variable train_test_split :
  list string -> list string -> Q -> Z -> list string ->
  result (list string * list string * list string * list string).

(** [TfidfVectorizer(max_features, ngram_range, min_df).fit_transform(X)]:
    the fitted vectorizer with the rows of [X]. *)
Variable TfidfVectorizer_fit_transform :
  nat -> nat * nat -> nat -> list string ->
  result (Sklearn.Vectorizer FV * list FV).

(** [MultinomialNB(alpha).fit(X, y)] *)
Variable MultinomialNB_fit :
  Q -> list FV -> list string -> result (Sklearn.Classifier FV).

Variable accuracy_score : list string -> list string -> Q.

Variable stopword_remover_remove : string -> string.
Variable stemmer_stem : string -> string.

(** [preprocess_dataset(df)]: the frame with its new column, or the
    exception of the sample that is printed: the first 50 characters of
    the answer of each of the first three rows. *)
Definition preprocess_dataset (df : list Row) : result (list Row) :=
  let processed :=
    preprocess_batch stopword_remover_remove stemmer_stem
      (List.map (fun r => cell_text (jawaban_user r)) df) in
  let df :=
    zip_with (fun r p => {| jawaban_user := jawaban_user r;
                            label_kualitas := label_kualitas r;
                            processed_text := p |}) df processed in
  _ ← mapM (fun r => cell_slice (jawaban_user r))
        (take (Nat.min 3 (length df)) df);
  Ok df.

(** What [train_model] computes.  Its [print] calls, and the
    classification report and confusion matrix that are only printed, are
    left out. *)
Definition train_model (df : list Row)
  : result (Sklearn.Classifier FV * Sklearn.Vectorizer FV * Q) :=
  let X := List.map processed_text df in
  let y := List.map label_kualitas df in
  '(X_train, X_test, y_train, y_test) ← train_test_split X y (2 # 10) 42 y;
  '(vectorizer, X_train_tfidf) ←
    TfidfVectorizer_fit_transform 1000 (1, 2)%nat 1 X_train;
  X_test_tfidf ← Sklearn.transform vectorizer X_test;
  model ← MultinomialNB_fit 1 X_train_tfidf y_train;
  y_pred ← Sklearn.predict model X_test_tfidf;
  let accuracy := accuracy_score y_test y_pred in
  Ok (model, vectorizer, accuracy).

End Training.

(** ** Words and normal texts *)

Definition nonspace (c : ascii) : bool := negb (Char.isspace c).

(** A character that every stage of the normaliser leaves alone inside a
    token. *)
Definition word_char (c : ascii) : bool :=
  negb (Char.isspace c) && negb (Char.isdigit c)
  && negb (Str.mem c punctuation) && Ascii.eqb (Char.lower c) c.

Definition is_word (w : string) : bool :=
  negb (Str.is_empty w) && Str.all word_char w.

(** The tokens [preprocess] joins. *)
Definition preprocess_tokens (remove stemf : string -> string) (text : string)
  : list string :=
  stem stemf
    (remove_stopwords remove (tokenize (remove_punctuation (case_folding text)))).

(** [np.argmax]: the first position of the largest entry. *)
Fixpoint np_argmax_from (i best : nat) (vbest : Q) (row : list Q) : nat :=
  match row with
  | [] => best
  | v :: rest =>
      if Qle_bool v vbest then np_argmax_from (S i) best vbest rest
      else np_argmax_from (S i) i v rest
  end.

Definition np_argmax (row : list Q) : nat :=
  match row with
  | [] => 0
  | v :: rest => np_argmax_from 1 0 v rest
  end.

(** ** What the program relies on in the libraries *)

(** [random.randint(lo, hi)] answers within its bounds. *)
Definition randint_contract {rng} (randint : Z -> Z -> rng -> Z * rng) : Prop :=
  forall lo hi g, (lo <= hi)%Z -> (lo <= (randint lo hi g).1 <= hi)%Z.

(** [random.sample] draws without replacement: its answer is the first
    [k] entries of some rearrangement of the population. *)
Definition sample_contract {rng}
    (choose : list string -> nat -> rng -> list string * rng) : Prop :=
  forall population k g, (k <= length population)%nat ->
    exists perm, perm ≡ₚ population /\ (choose population k g).1 = take k perm.


(** The stratified split refuses a data set of fewer than two rows when
    a fifth of it is to be held out. *)
Definition split_rejects_small
    (split : list string -> list string -> Q -> Z -> list string ->
             result (list string * list string * list string * list string))
  : Prop :=
  forall X y random_state stratify, (length X < 2)%nat ->
    raised (split X y (2 # 10) random_state stratify).

(** The text the endpoint builds from the form. *)
Definition input_text_of (form : gmap string string) : string :=
  form_get form "kondisi_kabut" +:+ " " +:+ form_get form "kondisi_bau"
  +:+ " " +:+ form_get form "kondisi_pernapasan" +:+ " "
  +:+ form_get form "deskripsi".

(** The percentages the endpoint answers with, for the row [row]. *)
Definition percentages {FV} (round_percent : Q -> Q)
    (m : Sklearn.Classifier FV) (row : list Q) : gmap string Q :=
  dict (zip (Sklearn.classes_ m) (List.map (fun p => round_percent p) row)).

(** The label and the row of probabilities computed for a normalised
    text, by the endpoint and by [test_prediction] alike. *)
Definition classify {FV} (m : Sklearn.Classifier FV)
    (v : Sklearn.Vectorizer FV) (processed_text : string)
  : result (string * list Q) :=
  text_tfidf ← Sklearn.transform v [processed_text];
  prediction ← Sklearn.predict m text_tfidf ≫= (fun y => getitem y 0);
  probability ← Sklearn.predict_proba m text_tfidf ≫= (fun P => getitem P 0);
  Ok (prediction, probability).

(** The label and the percentages of an answer that carries a
    prediction. *)
Definition prediction_of {rng} (r : result (Response * rng))
  : option (string * gmap string Q) :=
  match r with
  | Ok (PredictionResponse l _ _ probs _ _, _) => Some (l, probs)
  | _ => None
  end.

(** An answer of the endpoint without what was drawn at random: the
    advisory sentences and the state of the generator. *)
Definition without_randomness {rng} (r : result (Response * rng))
  : result Response :=
  match r with
  | Ok (PredictionResponse l i p probs _ d, _) =>
      Ok (PredictionResponse l i p probs [] d)
  | Ok (ErrorResponse msg, _) => Ok (ErrorResponse msg)
  | Raise e => Raise e
  end.

(** ** Stand-ins for the libraries

    Small, executable instances of what the sections above take as
    variables.  They serve to run the program on sample inputs. *)

Module Sample.

(** *** Sastrawi *)

(** Part of the stop-word list of Sastrawi's [StopWordRemoverFactory]. *)
Definition stop_words : list string :=
  [ "yang"; "untuk"; "pada"; "ke"; "para"; "namun"; "menurut"; "antara";
    "dia"; "dua"; "ia"; "seperti"; "jika"; "sehingga"; "kembali"; "dan";
    "tidak"; "ini"; "karena"; "kepada"; "oleh"; "saat"; "harus"; "setelah";
    "belum"; "kami"; "sekitar"; "bagi"; "serta"; "di"; "dari"; "telah";
    "sebagai"; "masih"; "hal"; "ketika"; "adalah"; "itu"; "dalam"; "bisa";
    "bahwa"; "atau"; "hanya"; "kita"; "dengan"; "akan"; "juga"; "ada";
    "mereka"; "sudah"; "saya"; "terhadap"; "secara"; "agar"; "lain";
    "anda"; "begitu"; "amat"; "agak" ].

(** [text.split(' ')]: the pieces between single spaces, empty ones kept. *)
Fixpoint split_on_space (cur : string) (s : string) : list string :=
  match s with
  | EmptyString => [cur]
  | String c r =>
      if Ascii.eqb c " " then cur :: split_on_space EmptyString r
      else split_on_space (cur +:+ String c EmptyString) r
  end.

(** Sastrawi's [StopWordRemover.remove]: the text is cut at its spaces,
    the pieces found in the stop-word list are dropped, the others are
    joined by a space again. *)
Definition remove (text : string) : string :=
  let words := split_on_space EmptyString text in
  Str.join " "
    (List.filter (fun w => negb (existsb (String.eqb w) stop_words)) words).

(** A few entries of Sastrawi's dictionary of root words. *)
Definition root_words : list string :=
  [ "ada"; "udara"; "bersih"; "segar"; "asap"; "bau"; "langit"; "cerah";
    "debu"; "mata"; "perih"; "sesak"; "napas"; "tebal"; "kabut" ].

Fixpoint strip_suffix (suffix w : string) : option string :=
  if String.eqb w suffix then Some EmptyString
  else match w with
       | EmptyString => None
       | String c r => String c <$> strip_suffix suffix r
       end.

(** The stemmer on the words it is run on here: a root word is kept; a
    root word followed by the possessive [-nya] or by one of the
    particles [-lah], [-kah] loses that ending; any other word is kept. *)
Definition stemmer (w : string) : string :=
  if existsb (String.eqb w) root_words then w
  else
    let cut :=
      List.filter (fun r => existsb (String.eqb r) root_words)
        (omap (fun suffix => strip_suffix suffix w) ["nya"; "lah"; "kah"]) in
    match cut with
    | r :: _ => r
    | [] => w
    end.

(** *** random *)

(** A generator whose state is a counter. *)
Definition randint (lo hi : Z) (g : nat) : Z * nat :=
  ((lo + Z.of_nat g `mod` (hi - lo + 1))%Z, S g).

Definition choose (population : list string) (k : nat) (g : nat)
  : list string * nat :=
  (take k (rotate g population), S g).

(** *** float64 *)

(** The integer nearest to [q], a tie going to the even one. *)
Definition round_half_even (q : Q) : Z :=
  let f := Qfloor q in
  match (q - inject_Z f ?= 1 # 2)%Q with
  | Lt => f
  | Gt => (f + 1)%Z
  | Eq => if Z.even f then f else (f + 1)%Z
  end.

(** The percentage of [p] with one decimal, computed on the rational
    number: what float64 gives for a probability such as 1/2 or 1/4, whose
    percentage is a float64 with one decimal. *)
Definition round_percent (p : Q) : Q :=
  Qmake (round_half_even (p * 100 * 10)%Q) 10.

(** *** scikit-learn *)

Definition count_of (l : string) (y : list string) : nat :=
  length (List.filter (String.eqb l) y).

(** A vectorizer with the vocabulary [vocabulary]: a row has one column
    per word of the vocabulary, the number of times the document has the
    word; the other words of the document are ignored. *)
Definition vectorizer_of (vocabulary : list string)
  : Sklearn.Vectorizer (list nat) :=
  {| Sklearn.transform := fun docs =>
       Ok (List.map (fun d =>
             List.map (fun w => count_of w (Str.split d)) vocabulary)
             docs) |}.

(** A classifier fitted on [n_features] columns, that answers every row
    with the probabilities [row] and the class at their arg-max; a matrix
    with another number of columns is a [ValueError]. *)
Definition classifier_of (n_features : nat) (classes : list string)
    (row : list Q) : Sklearn.Classifier (list nat) :=
  let check_n_features {A} (X : list (list nat)) (answer : list A)
    : result (list A) :=
    if forallb (fun x => (length x =? n_features)%nat) X then Ok answer
    else Raise ValueError in
  {| Sklearn.classes_ := classes;
     Sklearn.predict := fun X =>
       check_n_features X
         (List.map (fun _ => nth (np_argmax row) classes EmptyString) X);
     Sklearn.predict_proba := fun X =>
       check_n_features X (List.map (fun _ => row) X) |}.

Definition labels : list string := ["Baik"; "Sedang"; "Tidak Sehat"].

Definition loaded (row : list Q) : Globals (list nat) :=
  {| model := Some (classifier_of (length root_words) labels row);
     vectorizer := Some (vectorizer_of root_words) |}.

Definition form_of (deskripsi : string) : gmap string string :=
  <["deskripsi" := deskripsi]> ∅.

Definition run_predict (G : Globals (list nat)) (form : gmap string string)
    (g : nat) : result (Response * nat) :=
  predict (list nat) remove stemmer round_percent nat randint choose G form g.

(** *** Training *)

(** The split as scikit-learn validates it: [n_test] is [test_size * n]
    rounded up and [n_train] the rest; an empty train part, a class with
    a single member, or a part smaller than the number of classes is a
    [ValueError].  Which rows go where depends on the seeded shuffle; here
    the first [n_train] rows are the train part. *)
Definition train_test_split (X y : list string) (test_size : Q)
    (random_state : Z) (stratify : list string)
  : result (list string * list string * list string * list string) :=
  let n := length X in
  let n_test := Z.to_nat (Qceiling (test_size * inject_Z (Z.of_nat n))) in
  let n_train := (n - n_test)%nat in
  let classes := remove_dups stratify in
  if (n_train =? 0)%nat then Raise ValueError
  else if existsb (fun c => (count_of c stratify <? 2)%nat) classes
  then Raise ValueError
  else if (n_train <? length classes)%nat || (n_test <? length classes)%nat
  then Raise ValueError
  else Ok (take n_train X, drop n_train X, take n_train y, drop n_train y).

(** The vocabulary is the set of words of the documents; an empty one is a
    [ValueError]. *)
Definition fit_transform (max_features : nat) (ngram_range : nat * nat)
    (min_df : nat) (X : list string)
  : result (Sklearn.Vectorizer (list nat) * list (list nat)) :=
  let vocabulary := remove_dups (List.concat (List.map Str.split X)) in
  match vocabulary with
  | [] => Raise ValueError
  | _ => X_tfidf ← Sklearn.transform (vectorizer_of vocabulary) X;
         Ok (vectorizer_of vocabulary, X_tfidf)
  end.

(** The classifier is fitted on the number of columns of [X] and answers
    with the class frequencies of [y]. *)
Definition fit (alpha : Q) (X : list (list nat)) (y : list string)
  : result (Sklearn.Classifier (list nat)) :=
  let classes := remove_dups y in
  Ok (classifier_of (length (hd [] X)) classes
        (List.map (fun c => Z.of_nat (count_of c y) # Pos.of_nat (length y))
           classes)).

Definition accuracy_score (y_true y_pred : list string) : Q :=
  Z.of_nat (length (List.filter (fun p => String.eqb p.1 p.2) (zip y_true y_pred)))
  # Pos.of_nat (length y_true).

Definition run_train_model (df : list Row) :=
  train_model (list nat) train_test_split fit_transform fit accuracy_score df.

(** Ten answers that all carry the label "Baik". *)
Definition one_label_dataset : list Row :=
  replicate 10 {| jawaban_user := Text "Udara segar";
                  label_kualitas := "Baik";
                  processed_text := "udara segar" |}.

End Sample.

(** ** Tokens *)

(** A character that [remove_punctuation] keeps inside a word. *)
Definition clean_char (c : ascii) : bool :=
  negb (Char.isspace c) && negb (Char.isdigit c)
  && negb (Str.mem c punctuation).

(** A non-empty text without white space: what [str.split()] returns. *)
Definition is_token (w : string) : bool :=
  negb (Str.is_empty w) && Str.all nonspace w.

(** The pool [get_saran] reads for a label. *)
Definition pool_of (kualitas : string) : Pool :=
  default pool_sedang (saran_pool !! kualitas).

(** ** model_training.py: persistence and the driver *)

Definition test_inputs : list string :=
  [ "Udara sangat segar dan bersih, langit cerah";
    "Ada sedikit kabut dan debu di udara";
    "Asap tebal menyengat, susah napas, mata perih parah" ].

Section Driver.

Variable FV : Type.
Variable blob : Type.

(** [pickle.dump] of the two objects, as the bytes written. *)
Variable pickle_dump_model : Sklearn.Classifier FV -> blob.
Variable pickle_dump_vectorizer : Sklearn.Vectorizer FV -> blob.

(** [pd.read_csv(filepath)] over the files of the working directory. *)
Variable read_csv : gmap string blob -> string -> result (list Row).

Variable train_test_split :
  list string -> list string -> Q -> Z -> list string ->
  result (list string * list string * list string * list string).
Variable TfidfVectorizer_fit_transform :
  nat -> nat * nat -> nat -> list string ->
  result (Sklearn.Vectorizer FV * list FV).
Variable MultinomialNB_fit :
  Q -> list FV -> list string -> result (Sklearn.Classifier FV).
Variable accuracy_score : list string -> list string -> Q.

Variable stopword_remover_remove : string -> string.
Variable stemmer_stem : string -> string.

Definition load_dataset (fs : gmap string blob) (filepath : string)
  : result (list Row) :=
  read_csv fs filepath.

(** [save_model(model, vectorizer, model_path, vectorizer_path)]: the
    files after the two writes. *)
Definition save_model (model : Sklearn.Classifier FV)
    (vectorizer : Sklearn.Vectorizer FV) (model_path vectorizer_path : string)
    (fs : gmap string blob) : gmap string blob :=
  let fs := <[model_path := pickle_dump_model model]> fs in
  <[vectorizer_path := pickle_dump_vectorizer vectorizer]> fs.

(** [test_prediction(model, vectorizer)]: for each test sentence, what it
    prints: the sentence, the normalised text, the label, and the classes
    with their probabilities (printed as percentages; the formatting is
    left out).  An empty answer of the model is an [IndexError]. *)
Definition test_prediction (model : Sklearn.Classifier FV)
    (vectorizer : Sklearn.Vectorizer FV)
  : result (list (string * string * string * list (string * Q))) :=
  mapM (fun text =>
          let processed :=
            preprocess stopword_remover_remove stemmer_stem text in
          text_tfidf ← Sklearn.transform vectorizer [processed];
          prediction ← Sklearn.predict model text_tfidf ≫= (fun y => getitem y 0);
          probability ←
            Sklearn.predict_proba model text_tfidf ≫= (fun P => getitem P 0);
          Ok (text, processed, prediction,
              zip (Sklearn.classes_ model) probability))
       test_inputs.

(** [main()]: what it returns or raises, and the files after it.  The
    default paths of [load_dataset] and [save_model] are written out. *)
Definition main (fs : gmap string blob) : result unit * gmap string blob :=
  match load_dataset fs "dataset_udara.csv" with
  | Raise e => (Raise e, fs)
  | Ok df =>
      match preprocess_dataset stopword_remover_remove stemmer_stem df with
      | Raise e => (Raise e, fs)
      | Ok df =>
          match train_model FV train_test_split TfidfVectorizer_fit_transform
                  MultinomialNB_fit accuracy_score df with
          | Raise e => (Raise e, fs)
          | Ok (model, vectorizer, accuracy) =>
              let fs := save_model model vectorizer
                          "model_nb.pkl" "vectorizer.pkl" fs in
              match test_prediction model vectorizer with
              | Raise e => (Raise e, fs)
              | Ok _ => (Ok tt, fs)
              end
          end
      end
  end.

End Driver.

(** The label, the advice and the description of an answer that carries
    a prediction. *)
Definition advice_of {rng} (r : result (Response * rng))
  : option (string * list string * string) :=
  match r with
  | Ok (PredictionResponse l _ _ _ s d, _) => Some (l, s, d)
  | _ => None
  end.



(** The four fields of the form that the endpoint reads. *)
Definition form_fields : list string :=
  ["kondisi_kabut"; "kondisi_bau"; "kondisi_pernapasan"; "deskripsi"].

(** ** Stand-ins for the files *)

Module SampleFiles.

(** What a file holds: a table, or one of the two pickled objects. *)
Inductive content : Type :=
| Csv (rows : list Row)
| PickledModel (m : Sklearn.Classifier (list nat))
| PickledVectorizer (v : Sklearn.Vectorizer (list nat)).

Definition pickle_load_model (b : content)
  : result (Sklearn.Classifier (list nat)) :=
  match b with
  | PickledModel m => Ok m
  | _ => Raise UnpicklingError
  end.

Definition pickle_load_vectorizer (b : content)
  : result (Sklearn.Vectorizer (list nat)) :=
  match b with
  | PickledVectorizer v => Ok v
  | _ => Raise UnpicklingError
  end.

(** A missing file or one that holds no table is an exception. *)
Definition read_csv (fs : gmap string content) (filepath : string)
  : result (list Row) :=
  match fs !! filepath with
  | Some (Csv rows) => Ok rows
  | _ => Raise ValueError
  end.

Definition load (fs : gmap string content) (G : Globals (list nat))
  : result bool * Globals (list nat) :=
  load_model (list nat) content pickle_load_model pickle_load_vectorizer fs G.

Definition save (m : Sklearn.Classifier (list nat))
    (v : Sklearn.Vectorizer (list nat)) (fs : gmap string content)
  : gmap string content :=
  save_model (list nat) content PickledModel PickledVectorizer m v
    "model_nb.pkl" "vectorizer.pkl" fs.

Definition run_main (fs : gmap string content)
  : result unit * gmap string content :=
  main (list nat) content PickledModel PickledVectorizer read_csv
    Sample.train_test_split Sample.fit_transform Sample.fit
    Sample.accuracy_score Sample.remove Sample.stemmer fs.

(** A directory with the data set only. *)
Definition with_dataset (rows : list Row) : gmap string content :=
  <["dataset_udara.csv" := Csv rows]> ∅.

(** A directory with the classifier file only. *)
Definition model_only : gmap string content :=
  <["model_nb.pkl" :=
      PickledModel (Sample.classifier_of (length Sample.root_words)
                      Sample.labels [1 # 2; 1 # 4; 1 # 4])]> ∅.

(** A directory after two trainings, with the classifier file of the
    first, fitted on three columns, and the vectorizer file of the second,
    whose vocabulary has fifteen words. *)
Definition mixed_pair : gmap string content :=
  <["model_nb.pkl" :=
      PickledModel (Sample.classifier_of 3 Sample.labels [1 # 2; 1 # 4; 1 # 4])]>
    (save (Sample.classifier_of (length Sample.root_words) Sample.labels
             [1 # 4; 1 # 4; 1 # 2])
          (Sample.vectorizer_of Sample.root_words) ∅).

(** A directory whose vectorizer file does not hold a vectorizer. *)
Definition broken_pair : gmap string content :=
  <["vectorizer.pkl" := Csv []]>
    (<["model_nb.pkl" :=
         PickledModel (Sample.classifier_of (length Sample.root_words) Sample.labels [1 # 2; 1 # 4; 1 # 4])]> ∅).

End SampleFiles.

(** Settles a closed, decidable statement by evaluating its decision
    procedure. *)
Ltac decide_by_computation :=
  apply (bool_decide_unpack _); vm_compute; exact I.

(** * Properties *)

(** ** Strings *)

Module StrFacts.

#[local] Arguments String.append !s1 s2 : simpl nomatch.

Lemma append_nil_r (s : string) : s +:+ EmptyString = s.
Proof. induction s as [|c s IH]; simpl; [reflexivity | now rewrite IH]. Qed.

Lemma append_assoc (a b c : string) : (a +:+ b) +:+ c = a +:+ (b +:+ c).
Proof. induction a as [|x a IH]; simpl; [reflexivity | now rewrite IH]. Qed.

Lemma all_append (p : ascii -> bool) (a b : string) :
  Str.all p (a +:+ b) = Str.all p a && Str.all p b.
Proof.
  induction a as [|x a IH]; simpl; [reflexivity |].
  now rewrite IH, andb_assoc.
Qed.

Lemma all_impl (p q : ascii -> bool) (s : string) :
  (forall c, p c = true -> q c = true) ->
  Str.all p s = true -> Str.all q s = true.
Proof.
  intros Hpq. induction s as [|c s IH]; simpl; [reflexivity |].
  intros [Hc Hs]%andb_prop. rewrite (Hpq c Hc). now apply IH.
Qed.

Lemma filter_all (p : ascii -> bool) (s : string) :
  Str.all p s = true -> Str.filter p s = s.
Proof.
  induction s as [|c s IH]; simpl; [reflexivity |].
  intros [Hc Hs]%andb_prop. rewrite Hc. now rewrite IH.
Qed.

Lemma map_fixed (f : ascii -> ascii) (s : string) :
  Str.all (fun c => Ascii.eqb (f c) c) s = true -> Str.map f s = s.
Proof.
  induction s as [|c s IH]; simpl; [reflexivity |].
  intros [Hc Hs]%andb_prop. apply Ascii.eqb_eq in Hc.
  rewrite Hc. now rewrite IH.
Qed.

(** The characters of a joined text are those of its words and of the
    separator. *)
Lemma all_join (p : ascii -> bool) (sep : string) (ws : list string) :
  Str.all p sep = true ->
  Forall (fun w => Str.all p w = true) ws ->
  Str.all p (Str.join sep ws) = true.
Proof.
  intros Hsep. induction 1 as [|w ws Hw Hws IH]; [reflexivity |].
  destruct ws as [|w' ws]; [exact Hw |].
  change (Str.join sep (w :: w' :: ws))
    with (w +:+ sep +:+ Str.join sep (w' :: ws)).
  rewrite !all_append, Hw, Hsep. exact IH.
Qed.

(** Reading on over characters that are not white space only extends the
    current word. *)
Lemma split_from_word (w cur rest : string) :
  Str.all (fun c => negb (Char.isspace c)) w = true ->
  Str.split_from cur (w +:+ rest) = Str.split_from (cur +:+ w) rest.
Proof.
  revert cur. induction w as [|c w IH]; intros cur; simpl.
  - now rewrite append_nil_r.
  - intros [Hc Hw]%andb_prop. apply negb_true_iff in Hc. rewrite Hc.
    rewrite (IH _ Hw), append_assoc. reflexivity.
Qed.

Lemma collapse_from_word (w rest : string) (b : bool) :
  Str.is_empty w = false ->
  Str.all (fun c => negb (Char.isspace c)) w = true ->
  Str.collapse_from b (w +:+ rest) = w +:+ Str.collapse_from false rest.
Proof.
  revert b. induction w as [|c w IH]; intros b; [discriminate |].
  intros _ [Hc Hw]%andb_prop. apply negb_true_iff in Hc.
  simpl. rewrite Hc. f_equal.
  destruct w as [|d w]; [reflexivity |].
  now apply IH.
Qed.

Lemma lstrip_word (w rest : string) :
  Str.is_empty w = false ->
  Str.all (fun c => negb (Char.isspace c)) w = true ->
  Str.lstrip (w +:+ rest) = w +:+ rest.
Proof.
  destruct w as [|c w]; [discriminate |].
  intros _ [Hc _]%andb_prop. apply negb_true_iff in Hc.
  simpl. now rewrite Hc.
Qed.

Lemma rstrip_word (w : string) :
  Str.all (fun c => negb (Char.isspace c)) w = true -> Str.rstrip w = w.
Proof.
  induction w as [|c w IH]; simpl; [reflexivity |].
  intros [Hc Hw]%andb_prop. apply negb_true_iff in Hc.
  now rewrite Hc, (IH Hw).
Qed.

Lemma is_empty_append (a b : string) :
  Str.is_empty b = false -> Str.is_empty (a +:+ b) = false.
Proof. destruct a; simpl; auto. Qed.

Lemma rstrip_append_word (a w : string) :
  Str.is_empty w = false ->
  Str.all (fun c => negb (Char.isspace c)) w = true ->
  Str.rstrip (a +:+ w) = a +:+ w.
Proof.
  intros Hne Hw. induction a as [|x a IH]; simpl.
  - now apply rstrip_word.
  - rewrite IH, (is_empty_append a w Hne), andb_false_r. reflexivity.
Qed.

End StrFacts.

(** ** Normal texts: words joined by single spaces *)

Section NormalTexts.

#[local] Arguments String.append !s1 s2 : simpl nomatch.

Lemma word_char_nonspace (c : ascii) : word_char c = true -> nonspace c = true.
Proof. unfold word_char. now intros [[[H _]%andb_prop _]%andb_prop _]%andb_prop. Qed.

Lemma is_word_nonempty (w : string) : is_word w = true -> Str.is_empty w = false.
Proof. unfold is_word. intros [H _]%andb_prop. now apply negb_true_iff. Qed.

Lemma is_word_nonspace (w : string) :
  is_word w = true -> Str.all nonspace w = true.
Proof.
  unfold is_word. intros [_ H]%andb_prop.
  revert H. apply StrFacts.all_impl, word_char_nonspace.
Qed.

Lemma is_word_all (p : ascii -> bool) (w : string) :
  (forall c, word_char c = true -> p c = true) ->
  is_word w = true -> Str.all p w = true.
Proof.
  intros Hp. unfold is_word. intros [_ H]%andb_prop.
  revert H. now apply StrFacts.all_impl.
Qed.

Lemma join_cons2 (sep w w' : string) (ws : list string) :
  Str.join sep (w :: w' :: ws) = w +:+ sep +:+ Str.join sep (w' :: ws).
Proof. reflexivity. Qed.

(** A joined text starts with its first word and ends with its last. *)
Lemma join_starts (sep w : string) (ws : list string) :
  exists rest, Str.join sep (w :: ws) = w +:+ rest.
Proof.
  destruct ws as [|w' ws].
  - exists EmptyString. simpl. now rewrite StrFacts.append_nil_r.
  - eexists. apply join_cons2.
Qed.

Lemma join_ends (sep w : string) (ws : list string) :
  exists front w', w' ∈ w :: ws /\ Str.join sep (w :: ws) = front +:+ w'.
Proof.
  revert w. induction ws as [|w' ws IH]; intros w.
  - exists EmptyString, w. split; [apply list_elem_of_here | reflexivity].
  - destruct (IH w') as (front & l & Hl & E).
    exists (w +:+ sep +:+ front), l. split; [now apply list_elem_of_further |].
    rewrite join_cons2, E, !StrFacts.append_assoc. reflexivity.
Qed.

Variable ws : list string.
Hypothesis words : Forall (fun w => is_word w = true) ws.

Lemma split_join : Str.split (Str.join " " ws) = ws.
Proof.
  unfold Str.split. induction words as [|w l Hw Hl IH]; [reflexivity |].
  destruct l as [|w' l].
  - simpl. rewrite <- (StrFacts.append_nil_r w) at 1.
    rewrite StrFacts.split_from_word by now apply is_word_nonspace.
    simpl. now rewrite (is_word_nonempty w Hw).
  - rewrite join_cons2.
    rewrite StrFacts.split_from_word by now apply is_word_nonspace.
    simpl. rewrite (is_word_nonempty w Hw). f_equal. now apply IH.
Qed.

Lemma collapse_join (b : bool) :
  Str.collapse_from b (Str.join " " ws) = Str.join " " ws.
Proof.
  revert b. induction words as [|w l Hw Hl IH]; intros b; [reflexivity |].
  destruct l as [|w' l].
  - simpl. rewrite <- (StrFacts.append_nil_r w) at 1.
    rewrite StrFacts.collapse_from_word;
      [| now apply is_word_nonempty | now apply is_word_nonspace].
    simpl. apply StrFacts.append_nil_r.
  - rewrite join_cons2.
    rewrite StrFacts.collapse_from_word;
      [| now apply is_word_nonempty | now apply is_word_nonspace].
    simpl. now rewrite (IH Hl).
Qed.

Lemma strip_join : Str.strip (Str.join " " ws) = Str.join " " ws.
Proof.
  unfold Str.strip. destruct words as [|w l Hw Hl]; [reflexivity |].
  destruct (join_starts " " w l) as [rest E].
  replace (Str.lstrip (Str.join " " (w :: l))) with (Str.join " " (w :: l)).
  - destruct (join_ends " " w l) as (front & w' & Hin & E').
    pose proof words as Hall. rewrite Forall_forall in Hall.
    specialize (Hall w' Hin).
    rewrite E'. apply StrFacts.rstrip_append_word;
      [now apply is_word_nonempty | now apply is_word_nonspace].
  - rewrite E. symmetry. apply StrFacts.lstrip_word;
      [now apply is_word_nonempty | now apply is_word_nonspace].
Qed.

Lemma all_join_words (p : ascii -> bool) :
  p " "%char = true ->
  (forall c, word_char c = true -> p c = true) ->
  Str.all p (Str.join " " ws) = true.
Proof.
  intros Hsp Hp. apply StrFacts.all_join.
  - simpl. now rewrite Hsp.
  - eapply Forall_impl; [exact words |]. intros w. now apply is_word_all.
Qed.

(** Every stage before the stop-word filter leaves a normal text alone. *)
Lemma case_folding_join : case_folding (Str.join " " ws) = Str.join " " ws.
Proof.
  apply StrFacts.map_fixed, all_join_words; [reflexivity |].
  unfold word_char. now intros c [_ H]%andb_prop.
Qed.

Lemma remove_punctuation_join :
  remove_punctuation (Str.join " " ws) = Str.join " " ws.
Proof.
  unfold remove_punctuation.
  rewrite (StrFacts.filter_all (fun c => negb (Str.mem c punctuation))).
  - rewrite StrFacts.filter_all.
    + unfold Str.collapse. now rewrite collapse_join, strip_join.
    + apply all_join_words; [reflexivity |].
      unfold word_char.
      now intros c [[[_ H]%andb_prop _]%andb_prop _]%andb_prop.
  - apply all_join_words; [reflexivity |].
    unfold word_char. now intros c [[_ H]%andb_prop _]%andb_prop.
Qed.

Lemma tokenize_join : tokenize (Str.join " " ws) = ws.
Proof. apply split_join. Qed.

End NormalTexts.

(** ** The normaliser *)

Section NormalizerFacts.

Variable remove stemf : string -> string.

Lemma preprocess_join (s : string) :
  preprocess remove stemf s = Str.join " " (preprocess_tokens remove stemf s).
Proof. reflexivity. Qed.

Lemma filter_keeps_all {A} (p : A -> bool) (l : list A) :
  Forall (fun x => p x = true) l -> List.filter p l = l.
Proof.
  induction 1 as [|x l Hx _ IH]; simpl; [reflexivity |].
  now rewrite Hx, IH.
Qed.

Lemma map_fixes_all {A} (f : A -> A) (l : list A) :
  Forall (fun x => f x = x) l -> List.map f l = l.
Proof.
  induction 1 as [|x l Hx _ IH]; simpl; [reflexivity |].
  now rewrite Hx, IH.
Qed.

(** No custom stop word survives [remove_stopwords], whatever the library
    pass does. *)
Lemma remove_stopwords_custom (tokens : list string) (w : string) :
  w ∈ remove_stopwords remove tokens ->
  (w ∉ CUSTOM_STOPWORDS) /\ (w ∈ Str.split (remove (Str.join " " tokens))).
Proof.
  unfold remove_stopwords. rewrite list_elem_of_In, filter_In.
  intros [Hin Hb]. apply bool_decide_eq_true in Hb.
  split; [exact Hb | now apply list_elem_of_In].
Qed.

(** Normalising a text made of words that no stage changes gives the text
    back. *)
Lemma preprocess_normal (ws : list string) :
  Forall (fun w => is_word w = true) ws ->
  remove (Str.join " " ws) = Str.join " " ws ->
  Forall (fun w => w ∉ CUSTOM_STOPWORDS) ws ->
  Forall (fun w => stemf w = w) ws ->
  preprocess remove stemf (Str.join " " ws) = Str.join " " ws.
Proof.
  intros Hws Hrem Hcustom Hstem. unfold preprocess.
  rewrite (case_folding_join ws Hws), (remove_punctuation_join ws Hws).
  rewrite (tokenize_join ws Hws).
  unfold remove_stopwords. rewrite Hrem, (split_join ws Hws).
  rewrite filter_keeps_all.
  - unfold stem. now rewrite map_fixes_all.
  - eapply Forall_impl; [exact Hcustom |].
    intros w Hw. now apply bool_decide_eq_true.
Qed.

End NormalizerFacts.

(** C1, as it holds: re-normalising the output of [preprocess] gives the
    same text whenever the tokens of that output are words (non-empty,
    without white space, digits, punctuation or capital letters) that the
    library stop-word pass keeps, that are not custom stop words, and that
    the stemmer maps to themselves. *)
Theorem preprocess_idempotent_on_fixed_tokens
    (remove stemf : string -> string) (s : string) :
  Forall (fun w => is_word w = true) (preprocess_tokens remove stemf s) ->
  remove (preprocess remove stemf s) = preprocess remove stemf s ->
  Forall (fun w => w ∉ CUSTOM_STOPWORDS) (preprocess_tokens remove stemf s) ->
  Forall (fun w => stemf w = w) (preprocess_tokens remove stemf s) ->
  preprocess remove stemf (preprocess remove stemf s)
  = preprocess remove stemf s.
Proof.
  rewrite (preprocess_join remove stemf s). apply preprocess_normal.
Qed.

Lemma preprocess_idempotent_witness :
  preprocess Sample.remove Sample.stemmer
    (preprocess Sample.remove Sample.stemmer "Udara Bersih!!!")
  = preprocess Sample.remove Sample.stemmer "Udara Bersih!!!".
Proof.
  apply preprocess_idempotent_on_fixed_tokens.
  - decide_by_computation.
  - vm_compute. reflexivity.
  - decide_by_computation.
  - decide_by_computation.
Defined.

(** C1, as stated, fails: the stemmer turns "adanya" into "ada", which is a
    custom stop word, so the second pass deletes what the first one
    produced. *)
Lemma preprocess_not_idempotent :
  Sample.stemmer "adanya" = "ada"
  /\ ("ada" ∈ CUSTOM_STOPWORDS)
  /\ preprocess Sample.remove Sample.stemmer "adanya" = "ada"
  /\ preprocess Sample.remove Sample.stemmer
       (preprocess Sample.remove Sample.stemmer "adanya") = EmptyString
  /\ preprocess Sample.remove Sample.stemmer
       (preprocess Sample.remove Sample.stemmer "adanya")
     <> preprocess Sample.remove Sample.stemmer "adanya".
Proof.
  split; [vm_compute; reflexivity |].
  split; [decide_by_computation |].
  split; [vm_compute; reflexivity |].
  split; [vm_compute; reflexivity |].
  vm_compute. discriminate.
Qed.

Lemma sample_sentence_tokens :
  tokenize (remove_punctuation (case_folding "udara yang sangat bersih"))
  = ["udara"; "yang"; "sangat"; "bersih"].
Proof. vm_compute. reflexivity. Qed.

(** C8: neither "yang" nor "sangat" is a token of
    [preprocess "udara yang sangat bersih"].  Of the library the proof
    uses that its stop-word pass adds no token to this sentence and that
    its stemmer keeps the root words "udara" and "bersih". *)
Theorem stopwords_removed (remove stemf : string -> string) :
  (forall w, w ∈ tokenize (remove "udara yang sangat bersih") ->
             w ∈ ["udara"; "yang"; "sangat"; "bersih"]) ->
  stemf "udara" = "udara" ->
  stemf "bersih" = "bersih" ->
  ("yang" ∉ tokenize (preprocess remove stemf "udara yang sangat bersih"))
  /\ ("sangat" ∉ tokenize (preprocess remove stemf "udara yang sangat bersih")).
Proof.
  intros Hrem Hudara Hbersih.
  rewrite preprocess_join. unfold preprocess_tokens.
  rewrite sample_sentence_tokens.
  set (T := remove_stopwords remove _).
  assert (HT : Forall (fun w => w = "udara" \/ w = "bersih") T).
  { apply Forall_forall. intros w [Hc Hin]%remove_stopwords_custom.
    apply Hrem in Hin.
    assert (Hy : "yang" ∈ CUSTOM_STOPWORDS)
      by (decide_by_computation).
    assert (Hs : "sangat" ∈ CUSTOM_STOPWORDS)
      by (decide_by_computation).
    repeat (apply elem_of_cons in Hin; destruct Hin as [-> | Hin]);
      try tauto.
    now apply elem_of_nil in Hin. }
  assert (Hfix : stem stemf T = T).
  { apply map_fixes_all. eapply Forall_impl; [exact HT |].
    intros w [-> | ->]; assumption. }
  assert (Hwords : Forall (fun w => is_word w = true) T).
  { eapply Forall_impl; [exact HT |].
    intros w [-> | ->]; vm_compute; reflexivity. }
  rewrite Hfix, (tokenize_join T Hwords).
  rewrite Forall_forall in HT.
  split; intros [E | E]%HT; discriminate E.
Qed.

Lemma stopwords_removed_witness :
  ("yang" ∉ tokenize
    (preprocess Sample.remove Sample.stemmer "udara yang sangat bersih"))
  /\ ("sangat" ∉ tokenize
    (preprocess Sample.remove Sample.stemmer "udara yang sangat bersih")).
Proof.
  apply stopwords_removed.
  - intros w Hw. vm_compute in Hw.
    apply elem_of_cons in Hw. destruct Hw as [-> | Hw].
    + apply list_elem_of_here.
    + apply elem_of_cons in Hw. destruct Hw as [-> | Hw].
      * do 2 apply list_elem_of_further. apply list_elem_of_here.
      * apply elem_of_cons in Hw. destruct Hw as [-> | Hw].
        -- do 3 apply list_elem_of_further. apply list_elem_of_here.
        -- now apply elem_of_nil in Hw.
  - vm_compute. reflexivity.
  - vm_compute. reflexivity.
Defined.

(** Capital letters and punctuation do not change the result, whatever
    the stop-word pass and the stemmer do. *)
Theorem preprocess_case_punctuation_invariant
    (remove stemf : string -> string) :
  preprocess remove stemf "Udara Bersih!!!"
  = preprocess remove stemf "udara bersih".
Proof.
  unfold preprocess.
  replace (tokenize (remove_punctuation (case_folding "Udara Bersih!!!")))
    with (tokenize (remove_punctuation (case_folding "udara bersih")))
    by (vm_compute; reflexivity).
  reflexivity.
Qed.

(** No custom stop word is among the tokens [remove_stopwords] returns,
    whatever the library pass answers. *)
Theorem remove_stopwords_no_custom
    (remove : string -> string) (tokens : list string) :
  Forall (fun w => w ∉ CUSTOM_STOPWORDS) (remove_stopwords remove tokens).
Proof.
  apply Forall_forall. intros w Hw.
  now apply remove_stopwords_custom in Hw as [Hw _].
Qed.

(** ** Dictionaries *)

Section DictFacts.

Context {V : Type}.




End DictFacts.

(** ** The advisory lookup *)

Section SaranFacts.

Variable rng : Type.
Variable randint : Z -> Z -> rng -> Z * rng.
Variable choose : list string -> nat -> rng -> list string * rng.

Lemma saran_pool_sedang : dict_getitem saran_pool "Sedang" = Ok pool_sedang.
Proof.
  unfold dict_getitem, saran_pool.
  rewrite lookup_insert_ne by discriminate.
  now rewrite lookup_insert_eq.
Qed.

Lemma saran_pool_unknown (kualitas : string) :
  kualitas <> "Baik" -> kualitas <> "Sedang" -> kualitas <> "Tidak Sehat" ->
  saran_pool !! kualitas = None.
Proof.
  intros H1 H2 H3. unfold saran_pool.
  rewrite !lookup_insert_ne by congruence. apply lookup_empty.
Qed.

(** With [randint] within its bounds the sample size is in range, so
    [get_saran] returns; colour, icon and description are those of the
    pool, whatever the generator does. *)
Lemma get_saran_returns (kualitas : string) (g : rng) :
  randint_contract randint ->
  let pool := default pool_sedang (saran_pool !! kualitas) in
  exists num g1 g2 selected,
    randint 4 5 g = (num, g1)
    /\ (4 <= num <= 5)%Z
    /\ choose (saran_all pool)
         (Z.to_nat (Z.min num (Z.of_nat (length (saran_all pool))))) g1
       = (selected, g2)
    /\ get_saran rng randint choose kualitas g
       = Ok ({| saran_warna := warna pool; saran_icon := icon pool;
                saran_deskripsi := deskripsi pool; saran := selected |}, g2).
Proof.
  intros Hrand pool. unfold get_saran.
  rewrite saran_pool_sedang. cbn [mbind result_bind]. fold pool.
  pose proof (Hrand 4 5 g ltac:(lia))%Z as Hnum.
  destruct (randint 4 5 g) as [num g1] eqn:E1. cbn [fst] in Hnum.
  unfold random_sample.
  destruct ((_ <? 0)%Z || _)%bool eqn:Eb.
  - apply orb_true_iff in Eb as [Hb%Z.ltb_lt | Hb%Z.ltb_lt]; lia.
  - destruct (choose _ _ g1) as [selected g2] eqn:E2.
    exists num, g1, g2, selected. cbn [mbind result_bind]. auto.
Qed.

End SaranFacts.

Lemma pool_sedang_distinct : NoDup (saran_all pool_sedang).
Proof. decide_by_computation. Qed.

(** C10: for a label outside the three categories [get_saran] returns, with
    the colour, icon and description of the "Sedang" pool and with four
    or five distinct sentences of that pool.  [random.randint] is taken
    to answer within its bounds and [random.sample] to draw without
    replacement. *)
Theorem get_saran_unknown_label
    (rng : Type) (randint : Z -> Z -> rng -> Z * rng)
    (choose : list string -> nat -> rng -> list string * rng)
    (kualitas : string) (g : rng) :
  randint_contract randint ->
  sample_contract choose ->
  kualitas <> "Baik" -> kualitas <> "Sedang" -> kualitas <> "Tidak Sehat" ->
  exists s g',
    get_saran rng randint choose kualitas g = Ok (s, g')
    /\ saran_warna s = "#ffc107"
    /\ saran_icon s = icon pool_sedang
    /\ saran_deskripsi s
       = "Kualitas udara cukup baik, namun perlu sedikit perhatian."
    /\ (length (saran s) = 4 \/ length (saran s) = 5)%nat
    /\ NoDup (saran s)
    /\ (forall x, x ∈ saran s -> x ∈ saran_all pool_sedang).
Proof.
  intros Hrand Hsample H1 H2 H3.
  destruct (get_saran_returns rng randint choose kualitas g Hrand)
    as (num & g1 & g2 & selected & _ & Hnum & Hchoose & Hget).
  rewrite (saran_pool_unknown kualitas H1 H2 H3) in Hchoose, Hget.
  cbn [default] in Hchoose, Hget.
  exists {| saran_warna := warna pool_sedang; saran_icon := icon pool_sedang;
            saran_deskripsi := deskripsi pool_sedang; saran := selected |}, g2.
  split; [exact Hget |]. do 3 (split; [reflexivity |]). cbn [saran].
  change (length (saran_all pool_sedang)) with 15%nat in Hchoose.
  replace (Z.min num (Z.of_nat 15)) with num in Hchoose by lia.
  destruct (Hsample (saran_all pool_sedang) (Z.to_nat num) g1)
    as (perm & Hperm & Htake).
  { change (length (saran_all pool_sedang)) with 15%nat. lia. }
  rewrite Hchoose in Htake. cbn [fst] in Htake. subst selected.
  assert (Hlen : length perm = 15%nat) by now rewrite Hperm.
  split; [| split].
  - rewrite length_take, Hlen. lia.
  - apply (sublist_NoDup _ perm); [| apply sublist_take].
    rewrite Hperm. apply pool_sedang_distinct.
  - intros x Hx. rewrite <- Hperm. revert Hx. apply subseteq_take.
Qed.

Lemma sample_randint_contract : randint_contract Sample.randint.
Proof.
  intros lo hi g Hle. unfold Sample.randint. cbn [fst].
  pose proof (Z.mod_pos_bound (Z.of_nat g) (hi - lo + 1)). lia.
Qed.

Lemma sample_choose_contract : sample_contract Sample.choose.
Proof.
  intros population k g Hk. exists (rotate g population). split.
  - unfold rotate. rewrite Permutation_app_comm. now rewrite take_drop.
  - reflexivity.
Qed.

Lemma get_saran_unknown_label_witness :
  exists s g',
    get_saran nat Sample.randint Sample.choose "Berbahaya" 0%nat = Ok (s, g')
    /\ saran_warna s = "#ffc107"
    /\ saran_icon s = icon pool_sedang
    /\ saran_deskripsi s
       = "Kualitas udara cukup baik, namun perlu sedikit perhatian."
    /\ (length (saran s) = 4 \/ length (saran s) = 5)%nat
    /\ NoDup (saran s)
    /\ (forall x, x ∈ saran s -> x ∈ saran_all pool_sedang).
Proof.
  apply get_saran_unknown_label.
  - exact sample_randint_contract.
  - exact sample_choose_contract.
  - discriminate.
  - discriminate.
  - discriminate.
Defined.

(** ** The endpoint *)


Lemma is_empty_false (s : string) : Str.is_empty s = false <-> s <> EmptyString.
Proof. destruct s; simpl; split; congruence. Qed.

(** The three library calls of a prediction, as one step. *)
Lemma classify_bind {FV B} (m : Sklearn.Classifier FV)
    (v : Sklearn.Vectorizer FV) (p : string)
    (k : string -> list Q -> result B) :
  (text_tfidf ← Sklearn.transform v [p];
   prediction ← Sklearn.predict m text_tfidf ≫= (fun y => getitem y 0);
   probability ← Sklearn.predict_proba m text_tfidf ≫= (fun P => getitem P 0);
   k prediction probability)
  = ('(prediction, probability) ← classify m v p; k prediction probability).
Proof.
  unfold classify.
  destruct (Sklearn.transform v _) as [X|]; [| reflexivity].
  cbn [mbind result_bind].
  destruct (Sklearn.predict m X) as [y|]; [| reflexivity].
  cbn [mbind result_bind].
  destruct (getitem y 0) as [l|]; [| reflexivity].
  cbn [mbind result_bind].
  destruct (Sklearn.predict_proba m X) as [P|]; [| reflexivity].
  cbn [mbind result_bind].
  destruct (getitem P 0) as [row|]; reflexivity.
Qed.

Section ServingFacts.

Variable FV : Type.
Variable remove stemf : string -> string.
Variable round_percent : Q -> Q.
Variable rng : Type.
Variable randint : Z -> Z -> rng -> Z * rng.
Variable choose : list string -> nat -> rng -> list string * rng.

#[local] Abbreviation serve :=
  (predict FV remove stemf round_percent rng randint choose).
#[local] Abbreviation normalise := (preprocess remove stemf).

Variable G : Globals FV.
Variable form : gmap string string.

Lemma predict_not_loaded (g : rng) :
  model FV G = None \/ vectorizer FV G = None ->
  serve G form g = Ok (ErrorResponse MSG_NOT_LOADED, g).
Proof.
  unfold predict. intros [-> | ->]; [reflexivity |].
  now destruct (model FV G).
Qed.

Lemma predict_blank (m : Sklearn.Classifier FV) (v : Sklearn.Vectorizer FV)
    (g : rng) :
  model FV G = Some m -> vectorizer FV G = Some v ->
  Str.strip (input_text_of form) = EmptyString ->
  serve G form g = Ok (ErrorResponse MSG_EMPTY, g).
Proof.
  intros Hm Hv Hblank. unfold predict. rewrite Hm, Hv.
  fold (input_text_of form). now rewrite Hblank.
Qed.

(** The path after the two guards. *)
Lemma predict_loaded (m : Sklearn.Classifier FV) (v : Sklearn.Vectorizer FV)
    (g : rng) :
  model FV G = Some m -> vectorizer FV G = Some v ->
  Str.strip (input_text_of form) <> EmptyString ->
  serve G form g
  = ('(prediction, probability) ←
       classify m v (normalise (input_text_of form));
     '(saran_info, g') ← get_saran rng randint choose prediction g;
     Ok (PredictionResponse prediction (input_text_of form)
           (normalise (input_text_of form))
           (percentages round_percent m probability)
           (saran saran_info) (saran_deskripsi saran_info), g')).
Proof.
  intros Hm Hv Hblank. unfold predict. rewrite Hm, Hv.
  fold (input_text_of form).
  apply is_empty_false in Hblank. rewrite Hblank.
  apply classify_bind.
Qed.

(** What a prediction in the answer was computed from. *)
Lemma predict_inv (g g' : rng) (l i p : string) (probs : gmap string Q)
    (s : list string) (d : string) :
  serve G form g = Ok (PredictionResponse l i p probs s d, g') ->
  exists m v row,
    model FV G = Some m /\ vectorizer FV G = Some v
    /\ i = input_text_of form /\ p = normalise i
    /\ classify m v p = Ok (l, row)
    /\ probs = percentages round_percent m row.
Proof.
  destruct (model FV G) as [m|] eqn:Hm;
    [| now rewrite predict_not_loaded by auto].
  destruct (vectorizer FV G) as [v|] eqn:Hv;
    [| now rewrite predict_not_loaded by auto].
  destruct (decide (Str.strip (input_text_of form) = EmptyString)) as [E | NE].
  - now rewrite (predict_blank m v g Hm Hv E).
  - rewrite (predict_loaded m v g Hm Hv NE).
    destruct (classify m v _) as [[l0 row]|] eqn:El; [| discriminate].
    cbn [mbind result_bind].
    destruct (get_saran _ _ _ l0 g) as [[sr g2]|]; [| discriminate].
    intros [= <- <- <- <- <- <- <-].
    exists m, v, row. auto 10.
Qed.

End ServingFacts.

(** C4, as it holds: the endpoint answers "model not loaded" exactly when
    the pair is not complete, and it answers, it does not raise.  When one
    of the two files is missing [load_model] raises nothing: it returns
    [False] and assigns neither global, so after a start with a missing
    file every request gets that answer.  It returns [True] exactly when
    both files are there and unpickle, and the globals then hold what the
    two files held, whether the two objects belong together or not. *)
Theorem model_unavailable
    (FV blob : Type)
    (pickle_load_model : blob -> result (Sklearn.Classifier FV))
    (pickle_load_vectorizer : blob -> result (Sklearn.Vectorizer FV))
    (remove stemf : string -> string)
    (round_percent : Q -> Q)
    (rng : Type) (randint : Z -> Z -> rng -> Z * rng)
    (choose : list string -> nat -> rng -> list string * rng)
    (fs : gmap string blob) (G : Globals FV)
    (form : gmap string string) (g : rng) :
  let load := load_model FV blob pickle_load_model pickle_load_vectorizer in
  let serve := predict FV remove stemf round_percent rng randint choose in
  (serve G form g = Ok (ErrorResponse MSG_NOT_LOADED, g)
   <-> model FV G = None \/ vectorizer FV G = None)
  /\ (fs !! MODEL_PATH = None \/ fs !! VECTORIZER_PATH = None ->
      load fs G = (Ok false, G)
      /\ serve (load fs (startup FV)).2 form g
         = Ok (ErrorResponse MSG_NOT_LOADED, g))
  /\ (forall G', load fs G = (Ok true, G')
      <-> exists bm bv m v,
            fs !! MODEL_PATH = Some bm /\ fs !! VECTORIZER_PATH = Some bv
            /\ pickle_load_model bm = Ok m /\ pickle_load_vectorizer bv = Ok v
            /\ G' = {| model := Some m; vectorizer := Some v |}).
Proof.
  intros load serve. split; [| split].
  - split; [| apply predict_not_loaded].
    destruct (model FV G) as [m|] eqn:Hm; [| auto].
    destruct (vectorizer FV G) as [v|] eqn:Hv; [| auto].
    subst serve.
    destruct (decide (Str.strip (input_text_of form) = EmptyString))
      as [E | NE].
    + rewrite (predict_blank _ _ _ _ _ _ _ _ _ m v g Hm Hv E). discriminate.
    + rewrite (predict_loaded _ _ _ _ _ _ _ _ _ m v g Hm Hv NE).
      destruct (classify m v _) as [[? ?]|]; [| discriminate].
      cbn [mbind result_bind].
      destruct (get_saran _ _ _ _ g) as [[sr g2]|]; discriminate.
  - intros Hmissing.
    assert (Hload : forall G0, load fs G0 = (Ok false, G0)).
    { intros G0. subst load. unfold load_model, exists_.
      destruct Hmissing as [E | E]; rewrite E.
      - rewrite bool_decide_eq_false_2; [reflexivity |].
        now intros [x Hx].
      - rewrite (bool_decide_eq_false_2 (is_Some None));
          [now rewrite andb_false_r |].
        now intros [x Hx]. }
    split; [apply Hload |].
    rewrite Hload. apply predict_not_loaded. now left.
  - intros G'. subst load. unfold load_model, exists_.
    destruct (fs !! MODEL_PATH) as [bm|] eqn:Em.
    2:{ rewrite bool_decide_eq_false_2 by (now intros [x Hx]).
        split; [discriminate | now intros (? & ? & ? & ? & [=] & _)]. }
    destruct (fs !! VECTORIZER_PATH) as [bv|] eqn:Ev.
    2:{ rewrite (bool_decide_eq_false_2 (is_Some None))
          by (now intros [x Hx]).
        rewrite andb_false_r.
        split; [discriminate | now intros (? & ? & ? & ? & _ & [=] & _)]. }
    rewrite !bool_decide_eq_true_2 by eauto. cbn [andb].
    unfold dict_getitem. rewrite Em, Ev. cbn [mbind result_bind].
    destruct (pickle_load_model bm) as [m|] eqn:Hm.
    2:{ split; [discriminate |].
        intros (? & ? & ? & ? & [= <-] & _ & Hm' & _). congruence. }
    destruct (pickle_load_vectorizer bv) as [v|] eqn:Hv.
    2:{ split; [discriminate |].
        intros (? & ? & ? & ? & _ & [= <-] & _ & Hv' & _). congruence. }
    cbn. split.
    + intros [= <-]. exists bm, bv, m, v. auto 10.
    + intros (? & ? & m' & v' & [= <-] & [= <-] & Hm' & Hv' & ->).
      congruence.
Qed.

Lemma model_unavailable_witness :
  SampleFiles.load SampleFiles.model_only (startup (list nat))
  = (Ok false, startup (list nat))
  /\ Sample.run_predict
       (SampleFiles.load SampleFiles.model_only (startup (list nat))).2
       (Sample.form_of "udara segar") 0%nat
     = Ok (ErrorResponse MSG_NOT_LOADED, 0%nat).
Proof.
  apply (proj1 (proj2 (model_unavailable (list nat) SampleFiles.content
           SampleFiles.pickle_load_model SampleFiles.pickle_load_vectorizer
           Sample.remove Sample.stemmer Sample.round_percent nat
           Sample.randint Sample.choose SampleFiles.model_only
           (startup (list nat)) (Sample.form_of "udara segar") 0%nat))).
  right. reflexivity.
Defined.

(** C4, as stated, fails.  With the vectorizer file missing [load_model]
    raises nothing, it returns [False].  With the classifier of an
    earlier training, fitted on three columns, next to the vectorizer of
    a later one, which has fifteen, [load_model] returns [True] and the
    endpoint goes on with the two: the request is not answered with
    "model not loaded", the classifier refuses the row. *)
Lemma load_model_accepts_mismatched_pair :
  SampleFiles.load SampleFiles.model_only (startup (list nat))
  = (Ok false, startup (list nat))
  /\ ~ raised (SampleFiles.load SampleFiles.model_only (startup (list nat))).1
  /\ (SampleFiles.load SampleFiles.mixed_pair (startup (list nat))).1 = Ok true
  /\ Sample.run_predict
       (SampleFiles.load SampleFiles.mixed_pair (startup (list nat))).2
       (Sample.form_of "udara segar") 0%nat
     = Raise ValueError
  /\ Sample.run_predict
       (SampleFiles.load SampleFiles.mixed_pair (startup (list nat))).2
       (Sample.form_of "udara segar") 0%nat
     <> Ok (ErrorResponse MSG_NOT_LOADED, 0%nat).
Proof.
  split; [reflexivity |]. split; [intros [e [=]] |].
  split; [reflexivity |]. split; [vm_compute; reflexivity |].
  vm_compute. discriminate.
Qed.

(** C2: two runs of the endpoint on the same globals and the same form,
    from any two states of the random generator, agree on everything
    except the sampled advice: the same normalised text, the same label
    and the same percentages, or the same error.  Only
    [random.randint] answering within its bounds is used. *)
Theorem serving_deterministic
    (FV : Type) (remove stemf : string -> string)
    (round_percent : Q -> Q)
    (rng : Type) (randint : Z -> Z -> rng -> Z * rng)
    (choose : list string -> nat -> rng -> list string * rng)
    (G : Globals FV) (form : gmap string string) (g1 g2 : rng) :
  randint_contract randint ->
  without_randomness (predict FV remove stemf round_percent rng randint choose G form g1)
  = without_randomness (predict FV remove stemf round_percent rng randint choose G form g2).
Proof.
  intros Hrand.
  destruct (model FV G) as [m|] eqn:Hm;
    [| now rewrite !predict_not_loaded by auto].
  destruct (vectorizer FV G) as [v|] eqn:Hv;
    [| now rewrite !predict_not_loaded by auto].
  destruct (decide (Str.strip (input_text_of form) = EmptyString)) as [E | NE].
  - now rewrite !(predict_blank _ _ _ _ _ _ _ _ _ m v _ Hm Hv E).
  - rewrite !(predict_loaded _ _ _ _ _ _ _ _ _ m v _ Hm Hv NE).
    destruct (classify m v _) as [[l row]|]; [| reflexivity].
    cbn [mbind result_bind].
    destruct (get_saran_returns rng randint choose l g1 Hrand)
      as (? & ? & ? & ? & _ & _ & _ & ->).
    destruct (get_saran_returns rng randint choose l g2 Hrand)
      as (? & ? & ? & ? & _ & _ & _ & ->).
    reflexivity.
Qed.

Lemma serving_deterministic_witness :
  without_randomness
    (Sample.run_predict (Sample.loaded [1 # 2; 1 # 4; 1 # 4])
       (Sample.form_of "Udara segar") 0%nat)
  = without_randomness
      (Sample.run_predict (Sample.loaded [1 # 2; 1 # 4; 1 # 4])
         (Sample.form_of "Udara segar") 7%nat).
Proof.
  apply serving_deterministic. exact sample_randint_contract.
Defined.





(** ** Training *)

(** C3, as it holds: [train_model] has no check of its own; it returns a
    fitted pair exactly when the stratified split, the fit of the
    vectorizer, the fit of the classifier and the evaluation on the test
    part all return.  The split is taken to refuse fewer than two rows, so
    a data set of fewer than two rows yields no pair. *)
Theorem train_model_small_dataset
    (FV : Type)
    (split : list string -> list string -> Q -> Z -> list string ->
             result (list string * list string * list string * list string))
    (fit_transform : nat -> nat * nat -> nat -> list string ->
                     result (Sklearn.Vectorizer FV * list FV))
    (fit : Q -> list FV -> list string -> result (Sklearn.Classifier FV))
    (accuracy_score : list string -> list string -> Q)
    (df : list Row) :
  split_rejects_small split ->
  let train := train_model FV split fit_transform fit accuracy_score in
  let X := List.map processed_text df in
  let y := List.map label_kualitas df in
  length X = length y
  /\ ((length df < 2)%nat -> raised (train df))
  /\ (forall model vectorizer accuracy,
        train df = Ok (model, vectorizer, accuracy)
        <-> exists X_train X_test y_train y_test X_train_tfidf X_test_tfidf
                   y_pred,
              split X y (2 # 10) 42%Z y = Ok (X_train, X_test, y_train, y_test)
              /\ fit_transform 1000%nat (1, 2)%nat 1%nat X_train
                 = Ok (vectorizer, X_train_tfidf)
              /\ Sklearn.transform vectorizer X_test = Ok X_test_tfidf
              /\ fit 1%Q X_train_tfidf y_train = Ok model
              /\ Sklearn.predict model X_test_tfidf = Ok y_pred
              /\ accuracy = accuracy_score y_test y_pred).
Proof.
  intros Hsplit train X y. split; [| split].
  - subst X y. now rewrite !length_map.
  - intros Hlen. subst train. unfold train_model. fold X y.
    destruct (Hsplit X y 42%Z y) as [e ->].
    { subst X. now rewrite length_map. }
    exists e. reflexivity.
  - intros model vectorizer accuracy. subst train. unfold train_model.
    fold X y.
    destruct (split X y _ _ y)
      as [[[[X_train X_test] y_train] y_test] | e] eqn:Es;
      cbn [mbind result_bind];
      [| split; [discriminate
                | now intros (? & ? & ? & ? & ? & ? & ? & [=] & _)]].
    destruct (fit_transform _ _ _ X_train) as [[v X_train_tfidf] | e] eqn:Ef;
      cbn [mbind result_bind].
    2:{ split; [discriminate |].
        intros (? & ? & ? & ? & ? & ? & ? & [= <- <- <- <-] & Hf & _).
        congruence. }
    destruct (Sklearn.transform v X_test) as [X_test_tfidf | e] eqn:Et;
      cbn [mbind result_bind].
    2:{ split; [discriminate |].
        intros (? & ? & ? & ? & ? & ? & ? & [= <- <- <- <-] & Hf & Ht & _).
        rewrite Ef in Hf. injection Hf as <- <-. congruence. }
    destruct (fit _ X_train_tfidf y_train) as [c | e] eqn:Ec;
      cbn [mbind result_bind].
    2:{ split; [discriminate |].
        intros (? & ? & ? & ? & ? & ? & ? & [= <- <- <- <-] & Hf & _ & Hc & _).
        rewrite Ef in Hf. injection Hf as <- <-. congruence. }
    destruct (Sklearn.predict c X_test_tfidf) as [y_pred | e] eqn:Ep;
      cbn [mbind result_bind].
    2:{ split; [discriminate |].
        intros (? & ? & ? & ? & ? & ? & ? & [= <- <- <- <-] & Hf & Ht & Hc
                & Hp & _).
        rewrite Ef in Hf. injection Hf as <- <-.
        rewrite Et in Ht. injection Ht as <-.
        rewrite Ec in Hc. injection Hc as <-. congruence. }
    split.
    + intros [= <- <- <-].
      exists X_train, X_test, y_train, y_test, X_train_tfidf, X_test_tfidf,
        y_pred.
      auto 10.
    + intros (? & ? & ? & ? & ? & ? & ? & [= <- <- <- <-] & Hf & Ht & Hc
              & Hp & ->).
      rewrite Ef in Hf. injection Hf as <- <-.
      rewrite Et in Ht. injection Ht as <-.
      rewrite Ec in Hc. injection Hc as <-.
      rewrite Ep in Hp. injection Hp as <-. reflexivity.
Qed.

Lemma sample_split_rejects_small : split_rejects_small Sample.train_test_split.
Proof.
  intros X y random_state stratify Hlen. exists ValueError.
  destruct X as [|x [|x' X]]; [reflexivity | reflexivity |].
  simpl in Hlen. lia.
Qed.

Lemma train_model_small_dataset_witness :
  raised (Sample.run_train_model (take 1 Sample.one_label_dataset)).
Proof.
  refine (proj1 (proj2 (train_model_small_dataset (list nat)
            Sample.train_test_split Sample.fit_transform Sample.fit
            Sample.accuracy_score (take 1 Sample.one_label_dataset)
            sample_split_rejects_small)) _).
  vm_compute. lia.
Defined.

(** C3, as stated, fails: ten rows that all carry the label "Baik" have
    one distinct label, and training on them returns a classifier and a
    vectorizer. *)
Lemma train_model_accepts_one_label :
  length Sample.one_label_dataset = 10%nat
  /\ remove_dups (List.map label_kualitas Sample.one_label_dataset) = ["Baik"]
  /\ exists model vectorizer accuracy,
       Sample.run_train_model Sample.one_label_dataset
       = Ok (model, vectorizer, accuracy)
       /\ Sklearn.classes_ model = ["Baik"].
Proof.
  split; [reflexivity |]. split; [vm_compute; reflexivity |].
  unfold Sample.run_train_model, train_model.
  destruct (Sample.train_test_split _ _ _ _ _)
    as [[[[X_train X_test] y_train] y_test] | e] eqn:Es;
    [| vm_compute in Es; discriminate].
  vm_compute in Es. injection Es as <- <- <- <-.
  cbn [mbind result_bind].
  eexists _, _, _. split; reflexivity.
Qed.

(** * Further properties *)

(** ** Stripping, collapsing and splitting *)

Module StrNormal.

#[local] Arguments String.append !s1 s2 : simpl nomatch.

Lemma split_from_tokens_nonempty (s cur : string) :
  Forall (fun w => Str.is_empty w = false) (Str.split_from cur s).
Proof.
  revert cur. induction s as [|c s IH]; intros cur; simpl.
  - destruct (Str.is_empty cur) eqn:E; auto.
  - destruct (Char.isspace c); [| apply IH].
    destruct (Str.is_empty cur) eqn:E; auto.
Qed.

Lemma split_from_nonempty (s cur : string) :
  Str.is_empty cur = false -> Str.split_from cur s <> [].
Proof.
  revert cur. induction s as [|c s IH]; intros cur Hcur; simpl.
  - now rewrite Hcur.
  - destruct (Char.isspace c).
    + now rewrite Hcur.
    + apply IH. now apply StrFacts.is_empty_append.
Qed.

(** The tokens are made of the characters of the text. *)
Lemma split_from_all (p : ascii -> bool) (s cur : string) :
  Str.all p cur = true -> Str.all p s = true ->
  Forall (fun w => Str.all p w = true) (Str.split_from cur s).
Proof.
  revert cur. induction s as [|c s IH]; intros cur Hcur; simpl.
  - intros _. destruct (Str.is_empty cur); auto.
  - intros [Hc Hs]%andb_prop. destruct (Char.isspace c).
    + destruct (Str.is_empty cur); auto.
    + apply IH; [| exact Hs].
      rewrite StrFacts.all_append, Hcur. simpl. now rewrite Hc.
Qed.

(** No token holds white space. *)
Lemma split_from_nonspace (s cur : string) :
  Str.all nonspace cur = true ->
  Forall (fun w => Str.all nonspace w = true) (Str.split_from cur s).
Proof.
  revert cur. induction s as [|c s IH]; intros cur Hcur; simpl.
  - destruct (Str.is_empty cur); auto.
  - destruct (Char.isspace c) eqn:Ec.
    + destruct (Str.is_empty cur); auto.
    + apply IH. rewrite StrFacts.all_append, Hcur. simpl.
      unfold nonspace at 1. now rewrite Ec.
Qed.

Lemma lstrip_collapse (s : string) (b : bool) :
  Str.lstrip (Str.collapse_from b s) = Str.collapse_from true s.
Proof.
  revert b. induction s as [|c s IH]; intros b; [reflexivity |].
  simpl. destruct (Char.isspace c) eqn:Ec.
  - destruct b; [apply IH |]. simpl. apply IH.
  - simpl. now rewrite Ec.
Qed.

Lemma rstrip_append (p x : string) :
  Str.rstrip (p +:+ x)
  = if Str.is_empty (Str.rstrip x) then Str.rstrip p else p +:+ Str.rstrip x.
Proof.
  induction p as [|c p IH]; simpl.
  - now destruct (Str.rstrip x).
  - rewrite IH. destruct (Str.is_empty (Str.rstrip x)) eqn:E; [reflexivity |].
    now rewrite (StrFacts.is_empty_append p _ E), andb_false_r.
Qed.

Lemma is_empty_join (w : string) (ws : list string) :
  Str.is_empty w = false -> Str.is_empty (Str.join " " (w :: ws)) = false.
Proof.
  intros Hw. destruct ws as [|w' ws]; [exact Hw |].
  rewrite join_cons2. destruct w; [discriminate | reflexivity].
Qed.

(** Collapsing and right-stripping, against splitting: with a word being
    read, and between words. *)
Lemma rstrip_collapse_split (s : string) :
  (forall cur, Str.is_empty cur = false -> Str.all nonspace cur = true ->
     Str.rstrip (cur +:+ Str.collapse_from false s)
     = Str.join " " (Str.split_from cur s))
  /\ Str.rstrip (Str.collapse_from true s)
     = Str.join " " (Str.split_from EmptyString s).
Proof.
  induction s as [|c s [IH1 IH2]].
  - split; [| reflexivity]. intros cur Hne Hcur. simpl.
    rewrite Hne, StrFacts.append_nil_r. now apply StrFacts.rstrip_word.
  - assert (Hword : forall cur, Char.isspace c = false ->
              Str.all nonspace cur = true ->
              Str.rstrip (cur +:+ String c (Str.collapse_from false s))
              = Str.join " " (Str.split_from (cur +:+ String c EmptyString) s)).
    { intros cur Ec Hcur.
      replace (cur +:+ String c (Str.collapse_from false s))
        with ((cur +:+ String c EmptyString) +:+ Str.collapse_from false s)
        by now rewrite StrFacts.append_assoc.
      apply IH1; [now apply StrFacts.is_empty_append |].
      rewrite StrFacts.all_append, Hcur. simpl. unfold nonspace at 1.
      now rewrite Ec. }
    split.
    + intros cur Hne Hcur. simpl. destruct (Char.isspace c) eqn:Ec.
      * rewrite Hne.
        replace (cur +:+ String " " (Str.collapse_from true s))
          with ((cur +:+ " ") +:+ Str.collapse_from true s)
          by now rewrite StrFacts.append_assoc.
        rewrite rstrip_append, IH2.
        pose proof (split_from_tokens_nonempty s EmptyString) as Htok.
        destruct (Str.split_from EmptyString s) as [|t ts].
        -- simpl Str.join. simpl Str.is_empty.
           rewrite rstrip_append. simpl.
           now apply StrFacts.rstrip_word.
        -- inversion Htok as [|? ? Ht _]; subst.
           rewrite (is_empty_join t ts Ht), join_cons2.
           now rewrite StrFacts.append_assoc.
      * now apply Hword.
    + simpl. destruct (Char.isspace c) eqn:Ec; [exact IH2 |].
      now apply (Hword EmptyString).
Qed.

(** [re.sub(r'\s+', ' ', s).strip()] is [' '.join(s.split())]. *)
Lemma strip_collapse (s : string) :
  Str.strip (Str.collapse s) = Str.join " " (Str.split s).
Proof.
  unfold Str.strip, Str.collapse, Str.split.
  rewrite lstrip_collapse. apply rstrip_collapse_split.
Qed.

Lemma split_tokens (s : string) :
  Forall (fun w => is_token w = true) (Str.split s).
Proof.
  pose proof (split_from_tokens_nonempty s EmptyString) as H1.
  pose proof (split_from_nonspace s EmptyString eq_refl) as H2.
  unfold Str.split. rewrite Forall_forall in *.
  intros w Hw. unfold is_token. now rewrite (H1 w Hw), (H2 w Hw).
Qed.

(** Joining tokens by a space and splitting again gives the tokens. *)
Lemma split_join_tokens (ws : list string) :
  Forall (fun w => is_token w = true) ws ->
  Str.split (Str.join " " ws) = ws.
Proof.
  unfold Str.split. induction 1 as [|w l Hw Hl IH]; [reflexivity |].
  apply andb_prop in Hw as [Hne%negb_true_iff Hsp].
  destruct l as [|w' l].
  - simpl. rewrite <- (StrFacts.append_nil_r w) at 1.
    rewrite StrFacts.split_from_word by exact Hsp.
    simpl. now rewrite Hne.
  - rewrite join_cons2.
    rewrite StrFacts.split_from_word by exact Hsp.
    simpl. rewrite Hne. f_equal. exact IH.
Qed.

Lemma all_filter (p q : ascii -> bool) (s : string) :
  Str.all p s = true -> Str.all p (Str.filter q s) = true.
Proof.
  induction s as [|c s IH]; simpl; [reflexivity |].
  intros [Hc Hs]%andb_prop. destruct (q c); simpl; [rewrite Hc |]; auto.
Qed.

Lemma all_filter_self (p : ascii -> bool) (s : string) :
  Str.all p (Str.filter p s) = true.
Proof.
  induction s as [|c s IH]; simpl; [reflexivity |].
  destruct (p c) eqn:E; simpl; [rewrite E |]; auto.
Qed.

Lemma all_map (p : ascii -> bool) (f : ascii -> ascii) (s : string) :
  (forall c, p (f c) = true) -> Str.all p (Str.map f s) = true.
Proof.
  intros H. induction s as [|c s IH]; simpl; [reflexivity |].
  now rewrite H, IH.
Qed.

(** A text is blank exactly when it has no token. *)
Lemma split_nil (s : string) :
  Str.split s = [] <-> Str.all Char.isspace s = true.
Proof.
  unfold Str.split. induction s as [|c s IH]; simpl; [tauto |].
  destruct (Char.isspace c) eqn:Ec; [exact IH |]. simpl. split.
  - intros H. now apply split_from_nonempty in H.
  - discriminate.
Qed.

Lemma lstrip_cases (s : string) :
  (Str.lstrip s = EmptyString /\ Str.all Char.isspace s = true)
  \/ exists c r, Str.lstrip s = String c r /\ Char.isspace c = false.
Proof.
  induction s as [|c s IH]; simpl; [now left |].
  destruct (Char.isspace c) eqn:Ec; [exact IH |].
  right. eauto.
Qed.

Lemma strip_nil (s : string) :
  Str.strip s = EmptyString <-> Str.all Char.isspace s = true.
Proof.
  unfold Str.strip. destruct (lstrip_cases s) as [[E H] | (c & r & E & Ec)].
  - rewrite E. simpl. tauto.
  - rewrite E. simpl. rewrite Ec. simpl. split; [discriminate |].
    intros Hall. exfalso. clear -E Ec Hall.
    induction s as [|d s IH]; [discriminate |].
    simpl in E, Hall. apply andb_prop in Hall as [Hd Hs].
    rewrite Hd in E. auto.
Qed.

End StrNormal.

(** ** The cleaning stages *)

Lemma lower_idempotent (c : ascii) : Char.lower (Char.lower c) = Char.lower c.
Proof. destruct c as [[] [] [] [] [] [] [] []]; reflexivity. Qed.

Section Cleaning.

#[local] Arguments String.append !s1 s2 : simpl nomatch.

Variable text : string.

(** The text after the two deletions of [remove_punctuation]. *)
Let kept : string :=
  Str.filter (fun c => negb (Char.isdigit c))
    (Str.filter (fun c => negb (Str.mem c punctuation)) text).

Lemma remove_punctuation_split :
  remove_punctuation text = Str.join " " (Str.split kept).
Proof. unfold remove_punctuation. apply StrNormal.strip_collapse. Qed.

Lemma tokenize_remove_punctuation :
  tokenize (remove_punctuation text) = Str.split kept.
Proof.
  rewrite remove_punctuation_split.
  apply StrNormal.split_join_tokens, StrNormal.split_tokens.
Qed.

Lemma kept_all (p : ascii -> bool) :
  Str.all p text = true -> Str.all p kept = true.
Proof. intros H. unfold kept. now do 2 apply StrNormal.all_filter. Qed.

Lemma clean_tokens :
  Forall (fun w => Str.is_empty w = false /\ Str.all clean_char w = true)
    (Str.split kept).
Proof.
  pose proof (StrNormal.split_tokens kept) as Htok.
  pose proof (StrNormal.split_from_all
                (fun c => negb (Char.isdigit c)) kept EmptyString eq_refl
                (StrNormal.all_filter_self _ _)) as Hd.
  pose proof (StrNormal.split_from_all
                (fun c => negb (Str.mem c punctuation)) kept EmptyString eq_refl
                (StrNormal.all_filter _ _ _ (StrNormal.all_filter_self _ _)))
    as Hp.
  fold (Str.split kept) in Hd, Hp. rewrite Forall_forall in *.
  intros w Hw. specialize (Htok w Hw). specialize (Hd w Hw).
  specialize (Hp w Hw).
  apply andb_prop in Htok as [Hne%negb_true_iff Hsp]. split; [exact Hne |].
  clear Hne Hw. induction w as [|c w IH]; [reflexivity |].
  cbn [Str.all] in *. apply andb_prop in Hsp as [Hc1 Hsp].
  apply andb_prop in Hd as [Hc2 Hd]. apply andb_prop in Hp as [Hc3 Hp].
  unfold clean_char at 1. unfold nonspace in Hc1.
  rewrite Hc1, Hc2, Hc3. cbn [andb]. auto.
Qed.

End Cleaning.

Lemma isspace_lower (c : ascii) : Char.isspace (Char.lower c) = Char.isspace c.
Proof. destruct c as [[] [] [] [] [] [] [] []]; reflexivity. Qed.

Lemma all_isspace_lower (s : string) :
  Str.all Char.isspace (Str.lower s) = Str.all Char.isspace s.
Proof.
  unfold Str.lower. induction s as [|c s IH]; simpl; [reflexivity |].
  now rewrite isspace_lower, IH.
Qed.

(** A blank text has no token left after the cleaning. *)
Lemma tokenize_blank (s : string) :
  Str.all Char.isspace s = true ->
  tokenize (remove_punctuation (case_folding s)) = [].
Proof.
  intros Hs. rewrite tokenize_remove_punctuation.
  apply StrNormal.split_nil, kept_all.
  unfold case_folding. now rewrite all_isspace_lower.
Qed.

(** C7: a text of white space only normalises to the empty text: the
    empty text, a text of spaces, and any text of spaces, tabs, line
    breaks and the other characters that [str.isspace] accepts.  No stage
    fails on it: after the cleaning there is no token, the stop-word pass
    of the library is asked about the empty text only, which it is taken
    to answer with the empty text, and the stemmer is not called. *)
Theorem preprocess_empty (remove stemf : string -> string) :
  remove EmptyString = EmptyString ->
  preprocess remove stemf EmptyString = EmptyString
  /\ preprocess remove stemf "   " = EmptyString
  /\ forall s, Str.all Char.isspace s = true ->
       remove_punctuation (case_folding s) = EmptyString
       /\ tokenize (remove_punctuation (case_folding s)) = []
       /\ remove_stopwords remove [] = []
       /\ stem stemf [] = []
       /\ preprocess remove stemf s = EmptyString.
Proof.
  intros Hrem.
  assert (Hstop : remove_stopwords remove [] = []).
  { unfold remove_stopwords. simpl Str.join. now rewrite Hrem. }
  assert (Hblank : forall s, Str.all Char.isspace s = true ->
            preprocess remove stemf s = EmptyString).
  { intros s Hs. unfold preprocess. now rewrite (tokenize_blank s Hs), Hstop. }
  split; [now apply Hblank |]. split; [now apply Hblank |].
  intros s Hs. split.
  { rewrite remove_punctuation_split, <- tokenize_remove_punctuation.
    now rewrite (tokenize_blank s Hs). }
  split; [exact (tokenize_blank s Hs) |].
  split; [exact Hstop |]. split; [reflexivity |]. now apply Hblank.
Qed.

(** A tab, a line break, a no-break space and a space. *)
Lemma preprocess_empty_witness :
  let blank :=
    String (ascii_of_nat 9) (String (ascii_of_nat 10)
      (String (ascii_of_nat 160) " ")) in
  preprocess Sample.remove Sample.stemmer EmptyString = EmptyString
  /\ preprocess Sample.remove Sample.stemmer "   " = EmptyString
  /\ Str.all Char.isspace blank = true
  /\ preprocess Sample.remove Sample.stemmer blank = EmptyString.
Proof.
  intros blank.
  destruct (preprocess_empty Sample.remove Sample.stemmer)
    as (Hempty & Hspaces & Hblank); [vm_compute; reflexivity |].
  split; [exact Hempty |]. split; [exact Hspaces |].
  split; [reflexivity |]. now apply Hblank.
Defined.

(** The shape of a cleaned text. *)
Lemma remove_punctuation_joined (text : string) :
  remove_punctuation text
  = Str.join " " (tokenize (remove_punctuation text))
  /\ Forall (fun w => Str.is_empty w = false /\ Str.all clean_char w = true)
       (tokenize (remove_punctuation text)).
Proof.
  rewrite tokenize_remove_punctuation. split.
  - apply remove_punctuation_split.
  - apply clean_tokens.
Qed.

(** The result of [remove_punctuation] is its own words joined by single
    spaces, and each word is non-empty and free of white space, digits and
    punctuation: no leading, trailing or doubled space is left. *)
Theorem remove_punctuation_normal_form (text : string) :
  remove_punctuation text
  = Str.join " " (tokenize (remove_punctuation text))
  /\ Forall (fun w => Str.is_empty w = false /\ Str.all clean_char w = true)
       (tokenize (remove_punctuation text)).
Proof.
  rewrite tokenize_remove_punctuation. split.
  - apply remove_punctuation_split.
  - apply clean_tokens.
Qed.

Lemma clean_char_parts (c : ascii) :
  clean_char c = true ->
  nonspace c = true /\ negb (Char.isdigit c) = true
  /\ negb (Str.mem c punctuation) = true.
Proof.
  unfold clean_char, nonspace.
  now intros [[H1 H2]%andb_prop H3]%andb_prop.
Qed.

Lemma remove_punctuation_fixed (text : string) :
  remove_punctuation (remove_punctuation text) = remove_punctuation text.
Proof.
  destruct (remove_punctuation_joined text) as [E Hws].
  set (ws := tokenize (remove_punctuation text)) in *.
  assert (Hall : forall p : ascii -> bool, p " "%char = true ->
            (forall c, clean_char c = true -> p c = true) ->
            Str.all p (Str.join " " ws) = true).
  { intros p Hsp Hp. apply StrFacts.all_join; [simpl; now rewrite Hsp |].
    eapply Forall_impl; [exact Hws |]. intros w [_ Hw]. revert Hw.
    now apply StrFacts.all_impl. }
  rewrite E at 1. unfold remove_punctuation.
  rewrite (StrFacts.filter_all (fun c => negb (Str.mem c punctuation)))
    by (apply Hall; [reflexivity | intros c Hc; now apply clean_char_parts]).
  rewrite StrFacts.filter_all
    by (apply Hall; [reflexivity | intros c Hc; now apply clean_char_parts]).
  rewrite StrNormal.strip_collapse, StrNormal.split_join_tokens; [now rewrite <- E |].
  eapply Forall_impl; [exact Hws |]. intros w [Hne Hw]. unfold is_token.
  rewrite Hne. simpl. revert Hw. apply StrFacts.all_impl.
  intros c Hc. now apply clean_char_parts.
Qed.

(** Cleaning a cleaned text changes nothing. *)
Theorem remove_punctuation_idempotent (text : string) :
  remove_punctuation (remove_punctuation text) = remove_punctuation text.
Proof.
  destruct (remove_punctuation_joined text) as [E Hws].
  set (ws := tokenize (remove_punctuation text)) in *.
  assert (Hall : forall p : ascii -> bool, p " "%char = true ->
            (forall c, clean_char c = true -> p c = true) ->
            Str.all p (Str.join " " ws) = true).
  { intros p Hsp Hp. apply StrFacts.all_join; [simpl; now rewrite Hsp |].
    eapply Forall_impl; [exact Hws |]. intros w [_ Hw]. revert Hw.
    now apply StrFacts.all_impl. }
  rewrite E at 1. unfold remove_punctuation.
  rewrite (StrFacts.filter_all (fun c => negb (Str.mem c punctuation)))
    by (apply Hall; [reflexivity | intros c Hc; now apply clean_char_parts]).
  rewrite StrFacts.filter_all
    by (apply Hall; [reflexivity | intros c Hc; now apply clean_char_parts]).
  rewrite StrNormal.strip_collapse, StrNormal.split_join_tokens; [now rewrite <- E |].
  eapply Forall_impl; [exact Hws |]. intros w [Hne Hw]. unfold is_token.
  rewrite Hne. simpl. revert Hw. apply StrFacts.all_impl.
  intros c Hc. now apply clean_char_parts.
Qed.

Lemma case_folding_twice (text : string) :
  case_folding (case_folding text) = case_folding text
  /\ String.length (case_folding text) = String.length text.
Proof.
  unfold case_folding, Str.lower.
  induction text as [|c s [IH1 IH2]]; [split; reflexivity |].
  simpl. now rewrite lower_idempotent, IH1, IH2.
Qed.

(** Folding the case twice is folding it once, and no character is added
    or lost. *)
Theorem case_folding_idempotent (text : string) :
  case_folding (case_folding text) = case_folding text
  /\ String.length (case_folding text) = String.length text.
Proof.
  unfold case_folding, Str.lower.
  induction text as [|c s [IH1 IH2]]; [split; reflexivity |].
  simpl. now rewrite lower_idempotent, IH1, IH2.
Qed.

(** After case folding, the tokens handed to the stop-word pass are words
    in the sense of [is_word]. *)
Lemma cleaned_tokens_are_words (s : string) :
  Forall (fun w => is_word w = true)
    (tokenize (remove_punctuation (case_folding s))).
Proof.
  rewrite tokenize_remove_punctuation.
  pose proof (clean_tokens (case_folding s)) as Hclean.
  pose proof (StrNormal.split_from_all
                (fun c => Ascii.eqb (Char.lower c) c) _ EmptyString eq_refl
                (kept_all (case_folding s) _
                   (StrNormal.all_map _ Char.lower s
                      (fun c => proj2 (Ascii.eqb_eq _ _) (lower_idempotent c)))))
    as Hlow.
  cbv zeta in *. rewrite Forall_forall in *. intros w Hw.
  destruct (Hclean w Hw) as [Hne Hc]. specialize (Hlow w Hw).
  unfold is_word. rewrite Hne. simpl.
  clear Hne Hw. induction w as [|c w IH]; [reflexivity |].
  cbn [Str.all] in *. apply andb_prop in Hc as [Hc1 Hc].
  apply andb_prop in Hlow as [Hl1 Hl].
  unfold word_char at 1. unfold clean_char in Hc1.
  rewrite Hc1, Hl1. cbn [andb]. auto.
Qed.

(** The round trip through [tokenize] and [' '.join] inside
    [remove_stopwords] is the identity on a cleaned text: the library
    stop-word pass is run on the cleaned text itself, and [preprocess] is
    the stems of the words it leaves that are not custom stop words. *)
Theorem preprocess_factors (remove stemf : string -> string) (s : string) :
  preprocess remove stemf s
  = Str.join " "
      (List.map stemf
         (List.filter (fun w => bool_decide (w ∉ CUSTOM_STOPWORDS))
            (Str.split (remove (remove_punctuation (case_folding s)))))).
Proof.
  unfold preprocess, remove_stopwords, stem.
  now rewrite <- (proj1 (remove_punctuation_joined (case_folding s))).
Qed.

(** Cleaning a text beforehand, or only folding its case, does not change
    what [preprocess] returns, whatever the library functions are. *)
Theorem preprocess_after_cleaning (remove stemf : string -> string) (s : string) :
  preprocess remove stemf (remove_punctuation (case_folding s))
  = preprocess remove stemf s
  /\ preprocess remove stemf (case_folding s) = preprocess remove stemf s.
Proof.
  split.
  - unfold preprocess.
    rewrite (proj1 (remove_punctuation_joined (case_folding s))) at 1.
    rewrite (case_folding_join _ (cleaned_tokens_are_words s)).
    rewrite <- (proj1 (remove_punctuation_joined (case_folding s))).
    now rewrite remove_punctuation_fixed.
  - unfold preprocess.
    now rewrite (proj1 (case_folding_twice s)).
Qed.

(** [tokenize] returns non-empty tokens without white space, and none at
    all exactly when the text is blank. *)
Theorem tokenize_tokens (text : string) :
  Forall (fun w => is_token w = true) (tokenize text)
  /\ (tokenize text = [] <-> Str.strip text = EmptyString).
Proof.
  split; [apply StrNormal.split_tokens |].
  unfold tokenize. now rewrite StrNormal.split_nil, StrNormal.strip_nil.
Qed.

(** Joining tokens by single spaces and tokenizing gives the tokens back. *)
Theorem tokenize_join_round_trip (tokens : list string) :
  Forall (fun w => is_token w = true) tokens ->
  tokenize (Str.join " " tokens) = tokens.
Proof.
  unfold tokenize, Str.split.
  induction 1 as [|w l Hw Hl IH]; [reflexivity |].
  apply andb_prop in Hw as [Hne%negb_true_iff Hsp].
  destruct l as [|w' l].
  - cbn [Str.join]. rewrite <- (StrFacts.append_nil_r w) at 1.
    rewrite StrFacts.split_from_word by exact Hsp.
    change (EmptyString +:+ w) with w.
    cbn [Str.split_from]. now rewrite Hne.
  - rewrite join_cons2.
    rewrite StrFacts.split_from_word by exact Hsp.
    change (EmptyString +:+ w) with w.
    change (" " +:+ Str.join " " (w' :: l))
      with (String " " (Str.join " " (w' :: l))).
    cbn [Str.split_from]. change (Char.isspace " ") with true.
    cbn iota. rewrite Hne. f_equal. exact IH.
Qed.

Lemma tokenize_join_round_trip_witness :
  tokenize (Str.join " " ["Udara"; "segar,"; "langit"])
  = ["Udara"; "segar,"; "langit"].
Proof.
  apply tokenize_join_round_trip.
  repeat constructor.
Defined.

(** ** The pools *)

Lemma pool_of_known :
  pool_of "Baik" = pool_baik /\ pool_of "Sedang" = pool_sedang
  /\ pool_of "Tidak Sehat" = pool_tidak_sehat.
Proof.
  unfold pool_of. repeat split; vm_compute; reflexivity.
Qed.

Lemma pool_of_cases (kualitas : string) :
  pool_of kualitas = pool_baik \/ pool_of kualitas = pool_sedang
  \/ pool_of kualitas = pool_tidak_sehat.
Proof.
  destruct pool_of_known as (Hb & Hs & Ht).
  destruct (decide (kualitas = "Baik")) as [-> | N1]; [auto |].
  destruct (decide (kualitas = "Sedang")) as [-> | N2]; [auto |].
  destruct (decide (kualitas = "Tidak Sehat")) as [-> | N3]; [auto |].
  right. left. unfold pool_of. now rewrite saran_pool_unknown.
Qed.

Lemma pool_of_sentences (kualitas : string) :
  NoDup (saran_all (pool_of kualitas))
  /\ (5 <= length (saran_all (pool_of kualitas)))%nat.
Proof.
  destruct (pool_of_cases kualitas) as [-> | [-> | ->]];
    (split; [decide_by_computation | vm_compute; lia]).
Qed.

(** What [get_saran] returns, for any label. *)
Lemma get_saran_from_pool
    (rng : Type) (randint : Z -> Z -> rng -> Z * rng)
    (choose : list string -> nat -> rng -> list string * rng)
    (kualitas : string) (g : rng) :
  randint_contract randint ->
  sample_contract choose ->
  exists s g',
    get_saran rng randint choose kualitas g = Ok (s, g')
    /\ saran_warna s = warna (pool_of kualitas)
    /\ saran_icon s = icon (pool_of kualitas)
    /\ saran_deskripsi s = deskripsi (pool_of kualitas)
    /\ (length (saran s) = 4 \/ length (saran s) = 5)%nat
    /\ NoDup (saran s)
    /\ (forall x, x ∈ saran s -> x ∈ saran_all (pool_of kualitas)).
Proof.
  intros Hrand Hsample.
  destruct (get_saran_returns rng randint choose kualitas g Hrand)
    as (num & g1 & g2 & selected & _ & Hnum & Hchoose & Hget).
  fold (pool_of kualitas) in Hchoose, Hget.
  destruct (pool_of_sentences kualitas) as [Hnd Hlen].
  eexists _, g2. split; [exact Hget |]. do 3 (split; [reflexivity |]).
  cbn [saran].
  replace (Z.min num (Z.of_nat (length (saran_all (pool_of kualitas)))))
    with num in Hchoose by lia.
  destruct (Hsample (saran_all (pool_of kualitas)) (Z.to_nat num) g1)
    as (perm & Hperm & Htake); [lia |].
  rewrite Hchoose in Htake. cbn [fst] in Htake. subst selected.
  assert (Hl : length perm = length (saran_all (pool_of kualitas)))
    by now rewrite Hperm.
  split; [| split].
  - rewrite length_take, Hl. lia.
  - apply (sublist_NoDup _ perm); [| apply sublist_take].
    now rewrite Hperm.
  - intros x Hx. rewrite <- Hperm. revert Hx. apply subseteq_take.
Qed.

(** For every label, known or not, [get_saran] returns the colour, icon and
    description of the label's pool (the pool of "Sedang" for an unknown
    label) together with four or five distinct sentences of that pool; the
    three known labels have pools of their own.  [random.randint] is taken
    to answer within its bounds and [random.sample] to draw without
    replacement. *)
Theorem get_saran_draws_from_pool
    (rng : Type) (randint : Z -> Z -> rng -> Z * rng)
    (choose : list string -> nat -> rng -> list string * rng)
    (kualitas : string) (g : rng) :
  randint_contract randint ->
  sample_contract choose ->
  (pool_of "Baik" = pool_baik /\ pool_of "Sedang" = pool_sedang
   /\ pool_of "Tidak Sehat" = pool_tidak_sehat)
  /\ exists s g',
       get_saran rng randint choose kualitas g = Ok (s, g')
       /\ saran_warna s = warna (pool_of kualitas)
       /\ saran_icon s = icon (pool_of kualitas)
       /\ saran_deskripsi s = deskripsi (pool_of kualitas)
       /\ (length (saran s) = 4 \/ length (saran s) = 5)%nat
       /\ NoDup (saran s)
       /\ (forall x, x ∈ saran s -> x ∈ saran_all (pool_of kualitas)).
Proof.
  intros Hrand Hsample. split; [exact pool_of_known |].
  now apply get_saran_from_pool.
Qed.

Lemma get_saran_draws_from_pool_witness :
  (pool_of "Baik" = pool_baik /\ pool_of "Sedang" = pool_sedang
   /\ pool_of "Tidak Sehat" = pool_tidak_sehat)
  /\ exists s g',
       get_saran nat Sample.randint Sample.choose "Tidak Sehat" 3%nat
       = Ok (s, g')
       /\ saran_warna s = warna (pool_of "Tidak Sehat")
       /\ saran_icon s = icon (pool_of "Tidak Sehat")
       /\ saran_deskripsi s = deskripsi (pool_of "Tidak Sehat")
       /\ (length (saran s) = 4 \/ length (saran s) = 5)%nat
       /\ NoDup (saran s)
       /\ (forall x, x ∈ saran s -> x ∈ saran_all (pool_of "Tidak Sehat")).
Proof.
  apply get_saran_draws_from_pool.
  - exact sample_randint_contract.
  - exact sample_choose_contract.
Defined.

(** ** Saving and loading *)

Lemma load_after_save
    (FV blob : Type)
    (pickle_dump_model : Sklearn.Classifier FV -> blob)
    (pickle_dump_vectorizer : Sklearn.Vectorizer FV -> blob)
    (pickle_load_model : blob -> result (Sklearn.Classifier FV))
    (pickle_load_vectorizer : blob -> result (Sklearn.Vectorizer FV))
    (m : Sklearn.Classifier FV) (v : Sklearn.Vectorizer FV)
    (fs : gmap string blob) (G : Globals FV) :
  pickle_load_model (pickle_dump_model m) = Ok m ->
  pickle_load_vectorizer (pickle_dump_vectorizer v) = Ok v ->
  load_model FV blob pickle_load_model pickle_load_vectorizer
    (save_model FV blob pickle_dump_model pickle_dump_vectorizer m v
       "model_nb.pkl" "vectorizer.pkl" fs) G
  = (Ok true, {| model := Some m; vectorizer := Some v |}).
Proof.
  intros Hm Hv. unfold load_model, save_model, exists_, dict_getitem.
  change MODEL_PATH with "model_nb.pkl".
  change VECTORIZER_PATH with "vectorizer.pkl".
  rewrite lookup_insert_ne by discriminate.
  rewrite !lookup_insert_eq.
  rewrite !bool_decide_eq_true_2 by eauto.
  cbn [andb mbind result_bind]. rewrite Hm, Hv. reflexivity.
Qed.

(** What [save_model] writes under its default paths is what [load_model]
    reads: after the save, [load_model] returns [True] and the globals hold
    the saved pair, whatever they held before.  Unpickling is taken to give
    back the two objects that were pickled. *)
Theorem load_model_after_save
    (FV blob : Type)
    (pickle_dump_model : Sklearn.Classifier FV -> blob)
    (pickle_dump_vectorizer : Sklearn.Vectorizer FV -> blob)
    (pickle_load_model : blob -> result (Sklearn.Classifier FV))
    (pickle_load_vectorizer : blob -> result (Sklearn.Vectorizer FV))
    (m : Sklearn.Classifier FV) (v : Sklearn.Vectorizer FV)
    (fs : gmap string blob) (G : Globals FV) :
  pickle_load_model (pickle_dump_model m) = Ok m ->
  pickle_load_vectorizer (pickle_dump_vectorizer v) = Ok v ->
  load_model FV blob pickle_load_model pickle_load_vectorizer
    (save_model FV blob pickle_dump_model pickle_dump_vectorizer m v
       "model_nb.pkl" "vectorizer.pkl" fs) G
  = (Ok true, {| model := Some m; vectorizer := Some v |}).
Proof.
  intros Hm Hv. unfold load_model, save_model, exists_, dict_getitem.
  change MODEL_PATH with "model_nb.pkl".
  change VECTORIZER_PATH with "vectorizer.pkl".
  rewrite lookup_insert_ne by discriminate.
  rewrite !lookup_insert_eq.
  rewrite !bool_decide_eq_true_2 by eauto.
  cbn [andb mbind result_bind]. rewrite Hm, Hv. reflexivity.
Qed.

Lemma load_model_after_save_witness :
  SampleFiles.load
    (SampleFiles.save
       (Sample.classifier_of (length Sample.root_words) Sample.labels [1 # 2; 1 # 4; 1 # 4])
       (Sample.vectorizer_of Sample.root_words) SampleFiles.broken_pair)
    (startup (list nat))
  = (Ok true,
     {| model := Some (Sample.classifier_of (length Sample.root_words) Sample.labels [1 # 2; 1 # 4; 1 # 4]);
        vectorizer := Some (Sample.vectorizer_of Sample.root_words) |}).
Proof.
  apply (load_model_after_save (list nat) SampleFiles.content
           SampleFiles.PickledModel SampleFiles.PickledVectorizer
           SampleFiles.pickle_load_model SampleFiles.pickle_load_vectorizer);
    reflexivity.
Defined.

(** A load that does not return [True] serves nothing: from the start-up
    globals, if [load_model] returns [False] or raises, which it does when
    a file does not unpickle, every request is answered "model not
    loaded". *)
Theorem failed_load_serves_nothing
    (FV blob : Type)
    (pickle_load_model : blob -> result (Sklearn.Classifier FV))
    (pickle_load_vectorizer : blob -> result (Sklearn.Vectorizer FV))
    (remove stemf : string -> string)
    (round_percent : Q -> Q)
    (rng : Type) (randint : Z -> Z -> rng -> Z * rng)
    (choose : list string -> nat -> rng -> list string * rng)
    (fs : gmap string blob) (form : gmap string string) (g : rng) :
  (load_model FV blob pickle_load_model pickle_load_vectorizer fs
     (startup FV)).1 <> Ok true ->
  predict FV remove stemf round_percent rng randint choose
    (load_model FV blob pickle_load_model pickle_load_vectorizer fs
       (startup FV)).2 form g
  = Ok (ErrorResponse MSG_NOT_LOADED, g).
Proof.
  intros Hload. apply predict_not_loaded. revert Hload.
  unfold load_model, startup.
  destruct (exists_ blob fs MODEL_PATH && exists_ blob fs VECTORIZER_PATH);
    [| now left].
  destruct (dict_getitem fs MODEL_PATH ≫= pickle_load_model) as [m | e];
    [| now left].
  destruct (dict_getitem fs VECTORIZER_PATH ≫= pickle_load_vectorizer)
    as [v | e]; cbn; [congruence | now right].
Qed.

(** The model file unpickles, the vectorizer file does not: [load_model]
    raises with [model] assigned, and requests are still refused. *)
Lemma failed_load_serves_nothing_witness :
  (SampleFiles.load SampleFiles.broken_pair (startup (list nat))).1
  = Raise UnpicklingError
  /\ is_Some (model (list nat)
                (SampleFiles.load SampleFiles.broken_pair
                   (startup (list nat))).2)
  /\ Sample.run_predict
       (SampleFiles.load SampleFiles.broken_pair (startup (list nat))).2
       (Sample.form_of "udara segar") 0%nat
     = Ok (ErrorResponse MSG_NOT_LOADED, 0%nat).
Proof.
  split; [vm_compute; reflexivity |]. split; [vm_compute; eauto |].
  apply (failed_load_serves_nothing (list nat) SampleFiles.content
           SampleFiles.pickle_load_model SampleFiles.pickle_load_vectorizer).
  vm_compute. discriminate.
Defined.

(** ** More on the endpoint *)

Lemma all_isspace_input_text (form : gmap string string) :
  Str.all Char.isspace (input_text_of form) = true
  <-> Forall (fun name => Str.all Char.isspace (form_get form name) = true)
        form_fields.
Proof.
  unfold input_text_of, form_fields.
  rewrite !StrFacts.all_append. cbn [Str.all].
  change (Char.isspace " ") with true. cbn [andb].
  rewrite !Forall_cons, Forall_nil, !andb_true_iff. tauto.
Qed.

(** The endpoint answers "please fill in at least one question" exactly
    when the pair is loaded and each of the four fields it reads is
    missing, empty or white space only. *)
Theorem predict_rejects_exactly_blank_forms
    (FV : Type) (remove stemf : string -> string)
    (round_percent : Q -> Q)
    (rng : Type) (randint : Z -> Z -> rng -> Z * rng)
    (choose : list string -> nat -> rng -> list string * rng)
    (G : Globals FV) (form : gmap string string) (g : rng) :
  predict FV remove stemf round_percent rng randint choose G form g
  = Ok (ErrorResponse MSG_EMPTY, g)
  <-> is_Some (model FV G) /\ is_Some (vectorizer FV G)
      /\ Forall (fun name => Str.all Char.isspace (form_get form name) = true)
           form_fields.
Proof.
  rewrite <- all_isspace_input_text, <- StrNormal.strip_nil.
  destruct (model FV G) as [m|] eqn:Hm.
  2:{ rewrite predict_not_loaded by auto. split; [discriminate |].
      now intros [[? [=]] _]. }
  destruct (vectorizer FV G) as [v|] eqn:Hv.
  2:{ rewrite predict_not_loaded by auto. split; [discriminate |].
      now intros (_ & [? [=]] & _). }
  destruct (decide (Str.strip (input_text_of form) = EmptyString)) as [E | NE].
  - rewrite (predict_blank _ _ _ _ _ _ _ _ _ m v g Hm Hv E). split; eauto.
  - rewrite (predict_loaded _ _ _ _ _ _ _ _ _ m v g Hm Hv NE).
    split; [| now intros (_ & _ & E)].
    destruct (classify m v _) as [[? ?]|]; [| discriminate].
    cbn [mbind result_bind].
    destruct (get_saran _ _ _ _ g) as [[sr g2]|]; discriminate.
Qed.

(** The advice of an answer belongs to its label: the description is the
    one of the label's pool, and the advice is four or five distinct
    sentences of that pool.  [random.randint] is taken to answer within
    its bounds and [random.sample] to draw without replacement. *)
Theorem prediction_advice_matches_label
    (FV : Type) (remove stemf : string -> string)
    (round_percent : Q -> Q)
    (rng : Type) (randint : Z -> Z -> rng -> Z * rng)
    (choose : list string -> nat -> rng -> list string * rng)
    (G : Globals FV) (form : gmap string string) (g : rng)
    (label : string) (advice : list string) (description : string) :
  randint_contract randint ->
  sample_contract choose ->
  advice_of (predict FV remove stemf round_percent rng randint choose G form g)
  = Some (label, advice, description) ->
  description = deskripsi (pool_of label)
  /\ (length advice = 4 \/ length advice = 5)%nat
  /\ NoDup advice
  /\ (forall x, x ∈ advice -> x ∈ saran_all (pool_of label)).
Proof.
  intros Hrand Hsample.
  destruct (model FV G) as [m|] eqn:Hm;
    [| now rewrite predict_not_loaded by auto].
  destruct (vectorizer FV G) as [v|] eqn:Hv;
    [| now rewrite predict_not_loaded by auto].
  destruct (decide (Str.strip (input_text_of form) = EmptyString)) as [E | NE].
  { now rewrite (predict_blank _ _ _ _ _ _ _ _ _ m v g Hm Hv E). }
  rewrite (predict_loaded _ _ _ _ _ _ _ _ _ m v g Hm Hv NE).
  destruct (classify m v _) as [[l ?]|]; [| discriminate].
  cbn [mbind result_bind].
  destruct (get_saran_from_pool rng randint choose l g Hrand Hsample)
    as (s & g' & -> & _ & _ & Hd & Hlen & Hnd & Hin).
  cbn [mbind result_bind advice_of]. intros [= <- <- <-]. auto.
Qed.

Lemma prediction_advice_matches_label_witness :
  let advice :=
    [ "Cocok untuk olahraga dan kegiatan outdoor";
      "Nikmati udara segar dengan membuka jendela rumah";
      "Tidak perlu menggunakan masker";
      "Waktu yang tepat untuk jogging atau lari pagi" ] in
  deskripsi pool_baik = deskripsi (pool_of "Baik")
  /\ (length advice = 4 \/ length advice = 5)%nat
  /\ NoDup advice
  /\ (forall x, x ∈ advice -> x ∈ saran_all (pool_of "Baik")).
Proof.
  intros advice.
  apply (prediction_advice_matches_label (list nat)
           Sample.remove Sample.stemmer Sample.round_percent nat Sample.randint Sample.choose
           (Sample.loaded [1 # 2; 1 # 4; 1 # 4])
           (Sample.form_of "udara segar") 0%nat).
  - exact sample_randint_contract.
  - exact sample_choose_contract.
  - vm_compute. reflexivity.
Defined.

(** The label and the percentages depend on the form through the
    normalised text only: two requests that are not blank and normalise to
    the same text get the same label and the same percentages, whatever
    the state of the random generator.  [random.randint] is taken to
    answer within its bounds. *)
Theorem prediction_depends_on_normalised_text
    (FV : Type) (remove stemf : string -> string)
    (round_percent : Q -> Q)
    (rng : Type) (randint : Z -> Z -> rng -> Z * rng)
    (choose : list string -> nat -> rng -> list string * rng)
    (G : Globals FV) (form1 form2 : gmap string string) (g1 g2 : rng) :
  randint_contract randint ->
  Str.strip (input_text_of form1) <> EmptyString ->
  Str.strip (input_text_of form2) <> EmptyString ->
  preprocess remove stemf (input_text_of form1)
  = preprocess remove stemf (input_text_of form2) ->
  prediction_of (predict FV remove stemf round_percent rng randint choose G form1 g1)
  = prediction_of (predict FV remove stemf round_percent rng randint choose G form2 g2).
Proof.
  intros Hrand NE1 NE2 Hsame.
  destruct (model FV G) as [m|] eqn:Hm;
    [| now rewrite !predict_not_loaded by auto].
  destruct (vectorizer FV G) as [v|] eqn:Hv;
    [| now rewrite !predict_not_loaded by auto].
  rewrite (predict_loaded _ _ _ _ _ _ _ _ _ m v g1 Hm Hv NE1).
  rewrite (predict_loaded _ _ _ _ _ _ _ _ _ m v g2 Hm Hv NE2).
  cbv zeta. rewrite Hsame.
  destruct (classify m v _) as [[l row]|]; [| reflexivity].
  cbn [mbind result_bind].
  destruct (get_saran_returns rng randint choose l g1 Hrand)
    as (? & ? & ? & ? & _ & _ & _ & ->).
  destruct (get_saran_returns rng randint choose l g2 Hrand)
    as (? & ? & ? & ? & _ & _ & _ & ->).
  reflexivity.
Qed.

Lemma prediction_depends_on_normalised_text_witness :
  prediction_of
    (Sample.run_predict (Sample.loaded [1 # 2; 1 # 4; 1 # 4])
       (Sample.form_of "Udara SEGAR, yang bersih!!!") 0%nat)
  = prediction_of
      (Sample.run_predict (Sample.loaded [1 # 2; 1 # 4; 1 # 4])
         (<["kondisi_bau" := "udara segar"]> (Sample.form_of "bersih")) 5%nat).
Proof.
  apply prediction_depends_on_normalised_text.
  - exact sample_randint_contract.
  - vm_compute. discriminate.
  - vm_compute. discriminate.
  - vm_compute. reflexivity.
Defined.

(** ** The training driver *)










Section DriverFacts.

Variable FV : Type.
Variable blob : Type.
Variable pickle_dump_model : Sklearn.Classifier FV -> blob.
Variable pickle_dump_vectorizer : Sklearn.Vectorizer FV -> blob.
Variable read_csv : gmap string blob -> string -> result (list Row).
Variable split :
  list string -> list string -> Q -> Z -> list string ->
  result (list string * list string * list string * list string).
Variable fit_transform :
  nat -> nat * nat -> nat -> list string ->
  result (Sklearn.Vectorizer FV * list FV).
Variable fit : Q -> list FV -> list string -> result (Sklearn.Classifier FV).
Variable accuracy_score : list string -> list string -> Q.
Variable remove stemf : string -> string.

#[local] Abbreviation run_main :=
  (main FV blob pickle_dump_model pickle_dump_vectorizer read_csv split
     fit_transform fit accuracy_score remove stemf).
#[local] Abbreviation train :=
  (train_model FV split fit_transform fit accuracy_score).
#[local] Abbreviation save :=
  (save_model FV blob pickle_dump_model pickle_dump_vectorizer).

(** The files after [main], by what the loading and the training did. *)
Lemma main_files (fs : gmap string blob) :
  (main FV blob pickle_dump_model pickle_dump_vectorizer read_csv split
     fit_transform fit accuracy_score remove stemf fs).2
  = match load_dataset blob read_csv fs "dataset_udara.csv" with
    | Raise _ => fs
    | Ok df =>
        match preprocess_dataset remove stemf df ≫= train with
        | Raise _ => fs
        | Ok (m, v, _) => save m v "model_nb.pkl" "vectorizer.pkl" fs
        end
    end.
Proof.
  unfold main.
  destruct (load_dataset blob read_csv fs "dataset_udara.csv") as [df | e];
    [| reflexivity].
  destruct (preprocess_dataset remove stemf df) as [df' | e];
    [| reflexivity].
  cbn [mbind result_bind].
  destruct (train _) as [[[m v] a] | e]; [| reflexivity].
  now destruct (test_prediction FV remove stemf m v).
Qed.

End DriverFacts.

(** A run of [main] that fails before the training is done writes
    nothing: when reading the data set raises, or its preprocessing
    raises, or the training raises, [main] raises and every file is as it
    was. *)
Theorem main_failure_writes_nothing
    (FV blob : Type)
    (pickle_dump_model : Sklearn.Classifier FV -> blob)
    (pickle_dump_vectorizer : Sklearn.Vectorizer FV -> blob)
    (read_csv : gmap string blob -> string -> result (list Row))
    (split : list string -> list string -> Q -> Z -> list string ->
             result (list string * list string * list string * list string))
    (fit_transform : nat -> nat * nat -> nat -> list string ->
                     result (Sklearn.Vectorizer FV * list FV))
    (fit : Q -> list FV -> list string -> result (Sklearn.Classifier FV))
    (accuracy_score : list string -> list string -> Q)
    (remove stemf : string -> string)
    (fs : gmap string blob) :
  raised (load_dataset blob read_csv fs "dataset_udara.csv")
  \/ (exists df,
        load_dataset blob read_csv fs "dataset_udara.csv" = Ok df
        /\ raised (preprocess_dataset remove stemf df ≫=
                     train_model FV split fit_transform fit accuracy_score)) ->
  raised (main FV blob pickle_dump_model pickle_dump_vectorizer read_csv split
            fit_transform fit accuracy_score remove stemf fs).1
  /\ (main FV blob pickle_dump_model pickle_dump_vectorizer read_csv split
        fit_transform fit accuracy_score remove stemf fs).2 = fs.
Proof.
  unfold main. intros [[e ->] | (df & -> & [e He])].
  - split; [now exists e | reflexivity].
  - destruct (preprocess_dataset remove stemf df) as [df' | e'].
    + cbn [mbind result_bind] in He. rewrite He.
      split; [now exists e | reflexivity].
    + split; [now exists e' | reflexivity].
Qed.

Lemma main_failure_writes_nothing_witness :
  raised (SampleFiles.run_main
            (SampleFiles.with_dataset (take 1 Sample.one_label_dataset))).1
  /\ (SampleFiles.run_main
        (SampleFiles.with_dataset (take 1 Sample.one_label_dataset))).2
     = SampleFiles.with_dataset (take 1 Sample.one_label_dataset).
Proof.
  apply main_failure_writes_nothing. right.
  exists (take 1 Sample.one_label_dataset). split; [reflexivity |].
  exists ValueError. vm_compute. reflexivity.
Defined.

(** When the data set is read and the training returns a pair, [main]
    leaves that pair in the two files the server reads, also when the
    self-test that follows raises: a later [load_model] returns [True] with
    exactly the trained pair, and no other file is touched.  Unpickling is
    taken to give back the two objects that were pickled. *)
Theorem main_hands_over_the_pair
    (FV blob : Type)
    (pickle_dump_model : Sklearn.Classifier FV -> blob)
    (pickle_dump_vectorizer : Sklearn.Vectorizer FV -> blob)
    (pickle_load_model : blob -> result (Sklearn.Classifier FV))
    (pickle_load_vectorizer : blob -> result (Sklearn.Vectorizer FV))
    (read_csv : gmap string blob -> string -> result (list Row))
    (split : list string -> list string -> Q -> Z -> list string ->
             result (list string * list string * list string * list string))
    (fit_transform : nat -> nat * nat -> nat -> list string ->
                     result (Sklearn.Vectorizer FV * list FV))
    (fit : Q -> list FV -> list string -> result (Sklearn.Classifier FV))
    (accuracy_score : list string -> list string -> Q)
    (remove stemf : string -> string)
    (fs : gmap string blob) (df : list Row)
    (m : Sklearn.Classifier FV) (v : Sklearn.Vectorizer FV) (accuracy : Q)
    (G : Globals FV) :
  load_dataset blob read_csv fs "dataset_udara.csv" = Ok df ->
  preprocess_dataset remove stemf df ≫=
    train_model FV split fit_transform fit accuracy_score
  = Ok (m, v, accuracy) ->
  pickle_load_model (pickle_dump_model m) = Ok m ->
  pickle_load_vectorizer (pickle_dump_vectorizer v) = Ok v ->
  let fs' :=
    (main FV blob pickle_dump_model pickle_dump_vectorizer read_csv split
       fit_transform fit accuracy_score remove stemf fs).2 in
  load_model FV blob pickle_load_model pickle_load_vectorizer fs' G
  = (Ok true, {| model := Some m; vectorizer := Some v |})
  /\ (forall path, path <> MODEL_PATH -> path <> VECTORIZER_PATH ->
      fs' !! path = fs !! path).
Proof.
  intros Hload Htrain Hm Hv fs'. subst fs'.
  rewrite main_files, Hload, Htrain. split.
  - now apply load_after_save.
  - intros path H1 H2. unfold save_model, MODEL_PATH, VECTORIZER_PATH in *.
    now rewrite !lookup_insert_ne by congruence.
Qed.

Lemma main_hands_over_the_pair_witness :
  exists m v,
    SampleFiles.load
      (SampleFiles.run_main (SampleFiles.with_dataset Sample.one_label_dataset)).2
      (startup (list nat))
    = (Ok true, {| model := Some m; vectorizer := Some v |})
    /\ (forall path, path <> MODEL_PATH -> path <> VECTORIZER_PATH ->
        (SampleFiles.run_main
           (SampleFiles.with_dataset Sample.one_label_dataset)).2 !! path
        = SampleFiles.with_dataset Sample.one_label_dataset !! path).
Proof.
  destruct (preprocess_dataset Sample.remove Sample.stemmer
              Sample.one_label_dataset ≫=
            train_model (list nat) Sample.train_test_split
              Sample.fit_transform Sample.fit Sample.accuracy_score)
    as [[[m v] a] | e] eqn:E;
    [| vm_compute in E; discriminate].
  exists m, v.
  exact (main_hands_over_the_pair (list nat) SampleFiles.content
           SampleFiles.PickledModel SampleFiles.PickledVectorizer
           SampleFiles.pickle_load_model SampleFiles.pickle_load_vectorizer
           SampleFiles.read_csv Sample.train_test_split Sample.fit_transform
           Sample.fit Sample.accuracy_score Sample.remove Sample.stemmer
           (SampleFiles.with_dataset Sample.one_label_dataset)
           Sample.one_label_dataset m v a (startup (list nat))
           eq_refl E eq_refl eq_refl).
Defined.

(** ** The self-test *)

Lemma mapM_Ok {A B} (f : A -> result B) (l : list A) (k : list B) :
  mapM f l = Ok k -> Forall2 (fun x y => f x = Ok y) l k.
Proof.
  revert k. induction l as [|x l IH]; intros k; cbn.
  - intros [= <-]. constructor.
  - destruct (f x) as [y|] eqn:Ey; [| discriminate]. cbn.
    destruct (mapM f l) as [k'|]; [| discriminate]. cbn.
    intros [= <-]. constructor; auto.
Qed.

(** What [test_prediction] prints is what the server answers: each line
    belongs to one test sentence, in order, carries the normalised sentence,
    and its label is the label the endpoint gives, with the same pair
    loaded, to every request that is not blank and normalises to the same
    text.  [random.randint] is taken to answer within its bounds. *)
Theorem test_prediction_agrees_with_endpoint
    (FV : Type) (remove stemf : string -> string)
    (round_percent : Q -> Q)
    (rng : Type) (randint : Z -> Z -> rng -> Z * rng)
    (choose : list string -> nat -> rng -> list string * rng)
    (G : Globals FV) (m : Sklearn.Classifier FV) (v : Sklearn.Vectorizer FV)
    (lines : list (string * string * string * list (string * Q))) :
  randint_contract randint ->
  model FV G = Some m -> vectorizer FV G = Some v ->
  test_prediction FV remove stemf m v = Ok lines ->
  Forall2
    (fun text line =>
       let '(t, p, l, _) := line in
       t = text /\ p = preprocess remove stemf text
       /\ forall form g,
            Str.strip (input_text_of form) <> EmptyString ->
            preprocess remove stemf (input_text_of form) = p ->
            exists probs,
              prediction_of (predict FV remove stemf round_percent rng randint choose G form g)
              = Some (l, probs))
    test_inputs lines.
Proof.
  intros Hrand Hm Hv Htest. unfold test_prediction in Htest.
  apply mapM_Ok in Htest. eapply Forall2_impl; [exact Htest |].
  intros text [[[t p] l] pr]. cbv zeta. rewrite classify_bind.
  destruct (classify m v _) as [[l0 row]|] eqn:El; [| discriminate].
  cbn [mbind result_bind]. intros [= <- <- <- <-].
  split; [reflexivity |]. split; [reflexivity |].
  intros form g NE Hsame.
  rewrite (predict_loaded _ _ _ _ _ _ _ _ _ m v g Hm Hv NE).
  rewrite Hsame, El. cbn [mbind result_bind].
  destruct (get_saran_returns rng randint choose l0 g Hrand)
    as (? & ? & ? & ? & _ & _ & _ & ->).
  cbn [mbind result_bind prediction_of]. eauto.
Qed.

Lemma test_prediction_agrees_with_endpoint_witness :
  exists lines,
    test_prediction (list nat) Sample.remove Sample.stemmer
      (Sample.classifier_of (length Sample.root_words) Sample.labels [1 # 2; 1 # 4; 1 # 4])
      (Sample.vectorizer_of Sample.root_words) = Ok lines
    /\ Forall2
         (fun text line =>
            let '(t, p, l, _) := line in
            t = text /\ p = preprocess Sample.remove Sample.stemmer text
            /\ forall form g,
                 Str.strip (input_text_of form) <> EmptyString ->
                 preprocess Sample.remove Sample.stemmer (input_text_of form) = p ->
                 exists probs,
                   prediction_of
                     (Sample.run_predict (Sample.loaded [1 # 2; 1 # 4; 1 # 4])
                        form g)
                   = Some (l, probs))
         test_inputs lines.
Proof.
  destruct (test_prediction (list nat) Sample.remove Sample.stemmer
              (Sample.classifier_of (length Sample.root_words) Sample.labels [1 # 2; 1 # 4; 1 # 4])
              (Sample.vectorizer_of Sample.root_words)) as [lines | e] eqn:E;
    [| vm_compute in E; discriminate].
  exists lines. split; [reflexivity |].
  exact (test_prediction_agrees_with_endpoint (list nat)
           Sample.remove Sample.stemmer Sample.round_percent nat Sample.randint Sample.choose
           (Sample.loaded [1 # 2; 1 # 4; 1 # 4]) _ _ lines
           sample_randint_contract eq_refl eq_refl E).
Defined.
